(** * MY_RV_Source5: the Maxis trade-in quote scraper

    A shallow embedding of [scripts/Malaysia/MY_RV_Source5.PY] and the
    properties of its quote-retrieval state machine.

    Conventions of the embedding.
    - Python [str] values are [string]s whose characters stand for the code
      points below 256; [\s], [\d], [str.strip] and [str.lower] are written
      out for that range.
    - The browser, the file system and the clock are the environment: an
      abstract state [Env] with a function [perform] that answers every
      driver call, either with a value or with a raised exception.
    - The local variables that the nested functions of
      [scrape_trade_in_prices] share ([driver], [wait], [short_wait],
      [results_df]) live in the state that every computation threads.
    - Only exceptions below Python's [Exception] are modelled. *)

From Stdlib Require Import ZArith NArith Ascii String DecimalString.
From stdpp Require Import gmap strings list.

Local Open Scope string_scope.
Local Open Scope list_scope.
Local Open Scope stdpp_scope.

(* ===================================================================== *)
(** * Python strings *)
(* ===================================================================== *)

Module PyStr.

(** The double quote, for the scripts and messages that contain one. *)
Definition dquote : string := String (ascii_of_nat 34) EmptyString.

(** The line feed that opens some of the printed lines. *)
Definition nl : string := String (ascii_of_nat 10) EmptyString.

(** [str.isspace] on one character (code points below 256). *)
Definition is_space (c : ascii) : bool :=
  let n := N_of_ascii c in
  ((9 <=? n) && (n <=? 13) || (28 <=? n) && (n <=? 32)
   || (n =? 133) || (n =? 160))%N.

(** [\d] on one character: the decimal digits below 256 are [0-9]. *)
Definition is_digit (c : ascii) : bool :=
  let n := N_of_ascii c in ((48 <=? n) && (n <=? 57))%N.

(** [str.lower] on one character. *)
Definition lower_char (c : ascii) : ascii :=
  let n := N_of_ascii c in
  if ((65 <=? n) && (n <=? 90)
      || (192 <=? n) && (n <=? 222) && negb (n =? 215))%N
  then ascii_of_N (n + 32) else c.

Fixpoint lower (s : string) : string :=
  match s with
  | EmptyString => EmptyString
  | String c s' => String (lower_char c) (lower s')
  end.

(** [sub in s]. *)
Fixpoint contains (sub s : string) : bool :=
  String.prefix sub s ||
  match s with
  | EmptyString => false
  | String _ s' => contains sub s'
  end.

Fixpoint lstrip (s : string) : string :=
  match s with
  | String c s' => if is_space c then lstrip s' else s
  | EmptyString => EmptyString
  end.

Fixpoint rstrip (s : string) : string :=
  match s with
  | EmptyString => EmptyString
  | String c s' =>
      match rstrip s' with
      | EmptyString => if is_space c then EmptyString else String c EmptyString
      | r => String c r
      end
  end.

(** [s.strip()]. *)
Definition strip (s : string) : string := rstrip (lstrip s).

(** [s.replace(" ", "")]. *)
Fixpoint remove_spaces (s : string) : string :=
  match s with
  | EmptyString => EmptyString
  | String c s' =>
      if Ascii.eqb c " "%char then remove_spaces s' else String c (remove_spaces s')
  end.

(** Truth value of a string: [bool(s)]. *)
Definition truthy (s : string) : bool :=
  match s with EmptyString => false | _ => true end.

(** Every character is a decimal digit. *)
Fixpoint all_digits (s : string) : bool :=
  match s with
  | EmptyString => true
  | String c s' => is_digit c && all_digits s'
  end.

(** [str(n)] for the integers the script prints. *)
Definition str_of_nat (n : nat) : string := NilZero.string_of_uint (Nat.to_uint n).

Definition str_of_Z (z : Z) : string := NilZero.string_of_int (Z.to_int z).

(** [os.path.dirname] of [posixpath]. *)
Fixpoint rfind_slash (s : string) : option nat :=
  match s with
  | EmptyString => None
  | String c s' =>
      match rfind_slash s' with
      | Some i => Some (S i)
      | None => if Ascii.eqb c "/"%char then Some 0 else None
      end
  end.

Fixpoint all_slashes (s : string) : bool :=
  match s with
  | EmptyString => true
  | String c s' => Ascii.eqb c "/"%char && all_slashes s'
  end.

Fixpoint rstrip_slash (s : string) : string :=
  match s with
  | EmptyString => EmptyString
  | String c s' =>
      match rstrip_slash s' with
      | EmptyString => if Ascii.eqb c "/"%char then EmptyString else String c EmptyString
      | r => String c r
      end
  end.

Definition dirname (p : string) : string :=
  let i := match rfind_slash p with Some i => S i | None => 0 end in
  let head := String.substring 0 i p in
  if truthy head && negb (all_slashes head) then rstrip_slash head else head.

End PyStr.

(* ===================================================================== *)
(** * The two regular expressions of the script *)
(* ===================================================================== *)

Module Re.
Import PyStr.

(** Greedy [\s*]: what is left after the leading white space. *)
Fixpoint skip_spaces (s : string) : string :=
  match s with
  | String c s' => if is_space c then skip_spaces s' else s
  | EmptyString => EmptyString
  end.

(** Greedy [\s*], keeping what was matched. *)
Fixpoint span_spaces (s : string) : string * string :=
  match s with
  | String c s' =>
      if is_space c then let '(w, r) := span_spaces s' in (String c w, r)
      else (EmptyString, s)
  | EmptyString => (EmptyString, EmptyString)
  end.

(** Greedy [\d*]: the digits matched and the rest. *)
Fixpoint span_digits (s : string) : string * string :=
  match s with
  | String c s' =>
      if is_digit c then let '(d, r) := span_digits s' in (String c d, r)
      else (EmptyString, s)
  | EmptyString => (EmptyString, EmptyString)
  end.

(** [\d+(?:\.\d+)?] anchored at the head of [s]. Both quantifiers are
    greedy and no shorter choice can help what follows, so the first
    match of the backtracking engine is the greedy one. *)
Definition match_number (s : string) : option string :=
  let '(d, r) := span_digits s in
  if truthy d then
    match r with
    | String "."%char r' =>
        let '(f, _) := span_digits r' in
        if truthy f then Some (d +:+ "." +:+ f) else Some d
    | _ => Some d
    end
  else None.

(** [RM\s*(\d+(?:\.\d+)?)] anchored at the head of [s]; group 1. *)
Definition match_price_at (s : string) : option string :=
  match s with
  | String "R"%char (String "M"%char r) => match_number (skip_spaces r)
  | _ => None
  end.

(** [re.search(r'RM\s*(\d+(?:\.\d+)?)', s)], as [group(1)] of the match. *)
Fixpoint search_price (s : string) : option string :=
  match match_price_at s with
  | Some g => Some g
  | None =>
      match s with
      | EmptyString => None
      | String _ s' => search_price s'
      end
  end.

(** [(\d+\s*(?:GB|TB))] anchored at the head of [s]; group 1. *)
Definition match_capacity_at (s : string) : option string :=
  let '(d, r) := span_digits s in
  if truthy d then
    let '(w, r') := span_spaces r in
    match r' with
    | String "G"%char (String "B"%char _) => Some (d +:+ w +:+ "GB")
    | String "T"%char (String "B"%char _) => Some (d +:+ w +:+ "TB")
    | _ => None
    end
  else None.

(** [re.search(r'(\d+\s*(?:GB|TB))', s)], as [group(1)] of the match. *)
Fixpoint search_capacity (s : string) : option string :=
  match match_capacity_at s with
  | Some g => Some g
  | None =>
      match s with
      | EmptyString => None
      | String _ s' => search_capacity s'
      end
  end.

End Re.

(* ===================================================================== *)
(** * Values, exceptions and the driver interface *)
(* ===================================================================== *)

(** A raised exception: its class and [str(e)]. *)
Record PyExn := mkExn { exn_class : string; exn_text : string }.

(** The outcome of a call: a value or a raised exception. *)
Inductive Res (A : Type) : Type :=
| Ok (a : A)
| Raise (e : PyExn).
Arguments Ok {A} a.
Arguments Raise {A} e.

(** What [driver.execute_script] hands back to Python: the booleans and
    strings that the scripts of this file return, [None] and integers. *)
Inductive PyVal :=
| PyNone
| PyBool (b : bool)
| PyInt (z : Z)
| PyStr (s : string).

(** [bool(v)]. *)
Definition py_truthy (v : PyVal) : bool :=
  match v with
  | PyNone => false
  | PyBool b => b
  | PyInt z => negb (z =? 0)%Z
  | PyStr s => PyStr.truthy s
  end.

(** [str(v)], as an f-string prints it. *)
Definition py_str (v : PyVal) : string :=
  match v with
  | PyNone => "None"
  | PyBool true => "True"
  | PyBool false => "False"
  | PyInt z => PyStr.str_of_Z z
  | PyStr s => s
  end.

(** ["RM" in v]: defined on strings, a [TypeError] on the other values. *)
Definition py_contains (sub : string) (v : PyVal) : Res bool :=
  match v with
  | PyStr s => Ok (PyStr.contains sub s)
  | PyNone => Raise (mkExn "TypeError" "argument of type 'NoneType' is not iterable")
  | PyBool _ => Raise (mkExn "TypeError" "argument of type 'bool' is not iterable")
  | PyInt _ => Raise (mkExn "TypeError" "argument of type 'int' is not iterable")
  end.

(** Handles of browser sessions and of elements inside them. *)
Definition Driver := nat.
Definition WebElement := nat.

Inductive By := By_ID | By_TAG_NAME | By_CSS_SELECTOR.

(** The [expected_conditions] the script waits for. *)
Inductive Condition :=
| presence_of_element_located (by_ : By) (value : string)
| visibility_of_element_located (by_ : By) (value : string)
| element_to_be_clickable (by_ : By) (value : string).

(** [WebDriverWait(driver, timeout, poll_frequency, ignored_exceptions)];
    the poll frequency is kept in milliseconds and the ignored exceptions
    are the same pair at every construction. *)
Record WebDriverWait := mkWait
  { wait_driver : Driver; wait_timeout : nat; wait_poll_ms : nat }.

Inductive OptionValue := OptList (l : list string) | OptBool (b : bool).

Record ChromeOptions := mkChromeOptions
  { arguments : list string;
    experimental_options : list (string * OptionValue);
    page_load_strategy : string }.

(** A row of the result table is the [dict] it is built from. *)
Abbreviation Row := (gmap string string).
Abbreviation DataFrame := (list (gmap string string)).

(** The calls that leave the interpreter. *)
Inductive Op :=
| NewChrome (options : ChromeOptions)
| SetPageLoadTimeout (d : Driver) (seconds : nat)
| ExecuteScript (d : Driver) (script : string) (args : list WebElement)
| Get (d : Driver) (url : string)
| FindElements (d : Driver) (by_ : By) (value : string)
| FindElement (d : Driver) (by_ : By) (value : string)
| SwitchToFrame (d : Driver) (index : nat)
| CurrentUrl (d : Driver)
| Quit (d : Driver)
| Until (w : WebDriverWait) (c : Condition)
| NewSelect (e : WebElement)
| Options (e : WebElement)
| Text (e : WebElement)
| SelectByVisibleText (e : WebElement) (text : string)
| SelectByIndex (e : WebElement) (index : nat)
| ToExcel (df : DataFrame) (path : string)
| Makedirs (path : string).

(** The type of the value a call returns when it does not raise. *)
Definition Ret (o : Op) : Type :=
  match o with
  | NewChrome _ => Driver
  | ExecuteScript _ _ _ => PyVal
  | FindElements _ _ _ => list WebElement
  | FindElement _ _ _ => WebElement
  | CurrentUrl _ => string
  | Until _ _ => WebElement
  | Options _ => list WebElement
  | Text _ => string
  | _ => unit
  end.

Definition is_new_chrome (o : Op) : bool :=
  match o with NewChrome _ => true | _ => false end.

Definition is_quit (o : Op) : bool :=
  match o with Quit _ => true | _ => false end.

(** [o] runs the JavaScript text [script]. *)
Definition runs_script (script : string) (o : Op) : bool :=
  match o with
  | ExecuteScript _ script' _ => String.eqb script script'
  | _ => false
  end.


(** [for] loops: how a pass through the body ends. *)
Inductive Flow := Fallthrough | Continue | Break.

(** [models[:n]] for any integer [n]. *)
Definition slice_to {X} (l : list X) (n : Z) : list X :=
  if (0 <=? n)%Z then take (Z.to_nat n) l
  else take (length l - Z.to_nat (- n)) l.

(** [repr] of a list of strings that need no escaping. *)
Definition repr_list (l : list string) : string :=
  "[" +:+ String.concat ", " (map (fun s => "'" +:+ s +:+ "'") l) +:+ "]".

(* ===================================================================== *)
(** * Constants of the script: URL, JavaScript texts, tables *)
(* ===================================================================== *)

Definition URL : string := "https://www.maxis.com.my/en/devices/trade-in/".

Definition click_script : string := "arguments[0].click();".

Definition scroll_script : string :=
  "arguments[0].scrollIntoView({block: 'center'});".

Definition anti_detection_script : string :=
  "Object.defineProperty(navigator, 'webdriver', {get: () => undefined})".

(** The f-string of [js_check_radio]. *)
Definition check_radio_script (element_id : string) : string :=
  "
            var radio = document.getElementById('" +:+ element_id +:+ "');
            if(radio) {
                radio.checked = true;
                var event = new Event('change', { 'bubbles': true });
                radio.dispatchEvent(event);
                return true;
            }
            return false;
            ".

(** The f-string of [js_check_checkbox]; [check] is [str(check).lower()]. *)
Definition check_checkbox_script (element_id : string) (check : bool) : string :=
  "
            var checkbox = document.getElementById('" +:+ element_id +:+ "');
            if(checkbox) {
                checkbox.checked = " +:+ (if check then "true" else "false") +:+ ";
                var event = new Event('change', { 'bubbles': true });
                checkbox.dispatchEvent(event);
                return true;
            }
            return false;
            ".

(** Method 2 of [select_screen_condition]: by group name and value. *)
Definition radio_by_value_script (element_id : string) : string :=
  "
            var radios = document.getElementsByName('CPTS');
            for (var i = 0; i < radios.length; i++) {
                if (radios[i].value === '" +:+ element_id +:+ "') {
                    radios[i].checked = true;
                    var event = new Event('change', { 'bubbles': true });
                    radios[i].dispatchEvent(event);
                    return true;
                }
            }
            return false;
            ".

(** Method 3 of [select_screen_condition]: by the text of a paragraph. *)
Definition radio_by_label_script (condition : string) : string :=
  "
            var paragraphs = document.getElementsByTagName('p');
            for (var i = 0; i < paragraphs.length; i++) {
                if (paragraphs[i].textContent.trim() === '" +:+ condition +:+ "') {
                    var parent = paragraphs[i].parentNode;
                    while (parent && !parent.querySelector('input[type=" +:+ PyStr.dquote +:+ "radio" +:+ PyStr.dquote +:+ "]')) {
                        parent = parent.parentNode;
                    }
                    if (parent) {
                        var radio = parent.querySelector('input[type=" +:+ PyStr.dquote +:+ "radio" +:+ PyStr.dquote +:+ "]');
                        radio.checked = true;
                        var event = new Event('change', { 'bubbles': true });
                        radio.dispatchEvent(event);
                        return true;
                    }
                }
            }
            return false;
            ".

(** The last resort of [extract_price]: scan every element's text. *)
Definition price_scan_script : string :=
  "
                    var elements = document.querySelectorAll('*');
                    for(var i=0; i<elements.length; i++) {
                        var text = elements[i].textContent.trim();
                        if(text.match(/RM\s*\d+/)) {
                            return text;
                        }
                    }
                    return " +:+ PyStr.dquote +:+ PyStr.dquote +:+ ";
                ".

(** [condition_id_map]; "Heavy Scratches" would be CPTS03. *)
Definition condition_id_map : gmap string string :=
  {[ "Flawless" := "CPTS01"; "Good" := "CPTS02"; "Damaged" := "CPTS04" ]}.

Definition issue_checkboxes : list string :=
  ["CBAT"; "CTON"; "CBRK"; "CLIQ"; "CMIS"].

Definition price_selectors : list string :=
  [".valuationAmount"; "h1.mb-0.green1"; "h1.green1"; ".price"; "h1"].

Definition screen_conditions : list string := ["Flawless"; "Good"; "Damaged"].

Definition brands : list string := ["Apple"; "Samsung"].

(** The columns of the result table (lines 77-81). *)
Definition columns : list string :=
  ["Country"; "Device Type"; "Brand"; "Model"; "Capacity"; "Color";
   "Launch RRP"; "Condition"; "Value Type"; "Currency"; "Value";
   "Source"; "Updated on"; "Updated by"; "Comments"].

(** The [defaults] dictionary, given the date of the run. *)
Definition defaults_dict (date : string) : gmap string string :=
  {[ "Country" := "Malaysia";
     "Value Type" := "Trade-In";
     "Source" := "MY_RV_Source5";
     "Updated on" := date;
     "Color" := "";
     "Launch RRP" := "";
     "Updated by" := "";
     "Comments" := "";
     "Capacity" := "" ]}.

(** [d.update(u)]: the entries of [u] win. *)
Definition dict_update (d u : gmap string string) : gmap string string := u ∪ d.

(** The conditional expression of the "Device Type" entry. *)
Definition device_type (model : string) : string :=
  if PyStr.contains "iPhone" model || PyStr.contains "Galaxy" model
  then "Smartphone" else "Tablet".

(** The result entry of one work unit (lines 510-523). *)
Definition make_result (defaults : gmap string string)
    (brand model condition price : string) : gmap string string :=
  let result :=
    dict_update defaults
      {[ "Device Type" := device_type model;
         "Brand" := brand;
         "Model" := model;
         "Condition" := condition;
         "Currency" := "MYR";
         "Value" := price ]} in
  match Re.search_capacity model with
  | Some g => <["Capacity" := PyStr.remove_spaces g]> result
  | None => result
  end.

(** The positional fallback of the brand selection. *)
Definition fallback_index (brand : string) : nat :=
  if String.eqb brand "Apple" then 1 else 2.

(** Containment of the lower-cased texts in either direction. *)
Definition brand_matches (brand option_text : string) : bool :=
  PyStr.contains (PyStr.lower brand) (PyStr.lower option_text)
  || PyStr.contains (PyStr.lower option_text) (PyStr.lower brand).

(** The numeric part of a price text (lines 291-297): the guard on the
    currency marker, then the regular expression. The text is whatever the
    selectors or the script gave, so the test for the marker can raise. *)
Definition parse_price (price_text : PyVal) : Res string :=
  if py_truthy price_text then
    match py_contains "RM" price_text with
    | Ok true =>
        match price_text with
        | PyStr s =>
            match Re.search_price s with
            | Some g => Ok g
            | None => Ok ""
            end
        | _ => Ok ""
        end
    | Ok false => Ok ""
    | Raise e => Raise e
    end
  else Ok "".

(** [results_df.empty]. *)
Definition df_empty (df : DataFrame) : bool :=
  match df with [] => true | _ => false end.

(* ===================================================================== *)
(** * The interpreter state *)
(* ===================================================================== *)

(** The shared locals of [scrape_trade_in_prices], the environment, the
    calls made so far and the lines printed so far. *)
Record St (Env : Type) := mkSt
  { env : Env;
    driver : Driver;
    wait : WebDriverWait;
    short_wait : WebDriverWait;
    results_df : DataFrame;
    trace : list Op;
    stdout : list string }.
Arguments mkSt {Env}.
Arguments env {Env}.
Arguments driver {Env}.
Arguments wait {Env}.
Arguments short_wait {Env}.
Arguments results_df {Env}.
Arguments trace {Env}.
Arguments stdout {Env}.

(* ===================================================================== *)
(** * A scripted vendor page, to run the scraper on *)
(* ===================================================================== *)

(** A small concrete environment: one page with the two dropdowns, the
    condition form and a result view, and a browser that can die. The
    properties below hold for every environment; this one provides the
    concrete runs. *)
Module Sim.

Record Page := mkPage
  { dead : bool;                   (* the live session does not answer *)
    sessions : nat;                (* sessions created so far *)
    calls_left : option nat;       (* the session dies after that many calls *)
    has_iframe : bool;
    brand_options : list string;   (* option texts of #manufacturer *)
    model_options : list string;   (* option texts of #tinProduct *)
    present_ids : list string;     (* ids of the form controls present *)
    price_text : option string }.  (* text of the price heading, if shown *)

Definition Env := Page.

Definition session_lost : PyExn :=
  mkExn "InvalidSessionIdException" "invalid session id".
Definition timed_out : PyExn := mkExn "TimeoutException" "".
Definition no_such_element : PyExn :=
  mkExn "NoSuchElementException" "no such element".

Definition kill (p : Page) : Page :=
  mkPage true (sessions p) None (has_iframe p) (brand_options p)
         (model_options p) (present_ids p) (price_text p).

Definition spend (p : Page) : Page :=
  mkPage (dead p) (sessions p)
         (match calls_left p with Some (S n) => Some n | o => o end)
         (has_iframe p) (brand_options p) (model_options p) (present_ids p)
         (price_text p).

Definition fresh_session (p : Page) : Page :=
  mkPage false (S (sessions p)) None (has_iframe p) (brand_options p)
         (model_options p) (present_ids p) (price_text p).

Definition options_of (p : Page) (e : WebElement) : list string :=
  if (e =? 2)%nat then brand_options p
  else if (e =? 3)%nat then model_options p else [].

Definition text_of (p : Page) (e : WebElement) : string :=
  if (e =? 5)%nat then default "" (price_text p)
  else if (100 <=? e)%nat && (e <? 200)%nat
       then default "" (brand_options p !! (e - 100)%nat)
  else if (200 <=? e)%nat then default "" (model_options p !! (e - 200)%nat)
  else "".

Definition run_script (p : Page) (script : string) : PyVal :=
  if existsb (fun i => String.eqb script (check_radio_script i)
                       || String.eqb script (check_checkbox_script i true)
                       || String.eqb script (check_checkbox_script i false))
             (present_ids p)
  then PyBool true
  else if String.eqb script price_scan_script
  then PyStr (default "" (price_text p))
  else if String.eqb script click_script || String.eqb script scroll_script
          || String.eqb script anti_detection_script
  then PyNone
  else PyBool false.

(** The answer of a live session. *)
Definition answer (o : Op) (p : Page) : Res (Ret o) :=
  match o return Res (Ret o) with
  | NewChrome _ => Ok (S (sessions p))
  | SetPageLoadTimeout _ _ => Ok tt
  | ExecuteScript _ script _ => Ok (run_script p script)
  | Get _ _ => Ok tt
  | FindElements _ _ _ => Ok (if has_iframe p then [1] else [])
  | FindElement _ _ _ => Ok 6
  | SwitchToFrame _ _ => Ok tt
  | CurrentUrl _ => Ok URL
  | Quit _ => Ok tt
  | Until _ (presence_of_element_located By_TAG_NAME _) =>
      if has_iframe p then Ok 1 else Raise timed_out
  | Until _ (presence_of_element_located _ v) =>
      if String.eqb v "manufacturer" then Ok 2 else Ok 3
  | Until _ (visibility_of_element_located _ _) =>
      match price_text p with Some _ => Ok 5 | None => Raise timed_out end
  | Until _ (element_to_be_clickable _ _) => Ok 4
  | NewSelect _ => Ok tt
  | Options e =>
      Ok (seq (if (e =? 2)%nat then 100 else 200) (length (options_of p e)))
  | Text e => Ok (text_of p e)
  | SelectByVisibleText e t =>
      if existsb (String.eqb t) (options_of p e) then Ok tt
      else Raise no_such_element
  | SelectByIndex e i =>
      if (i <? length (options_of p e))%nat then Ok tt
      else Raise no_such_element
  | ToExcel _ _ => Ok tt
  | Makedirs _ => Ok tt
  end.

Definition perform (o : Op) (p : Page) : Res (Ret o) * Page :=
  match o return Res (Ret o) * Page with
  | NewChrome opts => (Ok (S (sessions p)), fresh_session p)
  | Quit _ => (Ok tt, p)
  | ToExcel _ _ => (Ok tt, p)
  | Makedirs _ => (Ok tt, p)
  | o =>
      if dead p then (Raise session_lost, p)
      else match calls_left p with
           | Some 0 => (Raise session_lost, kill p)
           | _ => (answer o p, spend p)
           end
  end.

Definition tick (n : nat) (p : Page) : Page := p.

Definition today (p : Page) : string := "2025-01-01".

(** A page where everything is in place. *)
Definition healthy : Page :=
  mkPage false 1 None true
         ["Select One"; "Apple"; "Samsung"]
         ["Select One"; "iPhone 13 128GB"]
         ["CPTS01"; "CPTS02"; "CPTS04"; "CPBP01";
          "CBAT"; "CTON"; "CBRK"; "CLIQ"; "CMIS"; "CISS"]
         (Some "RM 1,234").

(** The screen-condition radios are there, the body radios and the
    "none of the above" checkbox are not. *)
Definition no_body_radio : Page :=
  mkPage false 1 None true
         ["Select One"; "Apple"; "Samsung"]
         ["Select One"; "iPhone 13 128GB"]
         ["CPTS01"; "CPTS02"; "CPTS04"]
         (Some "RM 1,234").

(** No control of the condition form can be found. *)
Definition no_controls : Page :=
  mkPage false 1 None true
         ["Select One"; "Apple"; "Samsung"]
         ["Select One"; "iPhone 13 128GB"]
         []
         (Some "RM 1,234").

(** The session dies after [n] more calls. *)
Definition dies_after (n : nat) : Page :=
  mkPage false 1 (Some n) true
         ["Select One"; "Apple"; "Samsung"]
         ["Select One"; "iPhone 13 128GB"; "Galaxy S21 256GB"]
         ["CPTS01"; "CPTS02"; "CPTS04"; "CPBP01";
          "CBAT"; "CTON"; "CBRK"; "CLIQ"; "CMIS"; "CISS"]
         (Some "RM 1,234").

(** A state of the interpreter on page [p], session 1 live. *)
Definition on (p : Page) : St Env :=
  mkSt p 1 (mkWait 1 15 500) (mkWait 1 5 500) [] [] [].

End Sim.

(** A second, stateless environment: a page on which nothing is found.
    Every wait times out, every script returns the empty string, and the
    brand dropdown lists two other vendors. *)
Module Blank.

Definition Env := unit.

Definition perform (o : Op) (u : unit) : Res (Ret o) * unit :=
  match o return Res (Ret o) * unit with
  | NewChrome _ => (Ok 1, u)
  | SetPageLoadTimeout _ _ => (Ok tt, u)
  | ExecuteScript _ _ _ => (Ok (PyStr ""), u)
  | Get _ _ => (Ok tt, u)
  | FindElements _ _ _ => (Ok [], u)
  | FindElement _ _ _ => (Raise Sim.no_such_element, u)
  | SwitchToFrame _ _ => (Ok tt, u)
  | CurrentUrl _ => (Ok URL, u)
  | Quit _ => (Ok tt, u)
  | Until _ _ => (Raise Sim.timed_out, u)
  | NewSelect _ => (Ok tt, u)
  | Options _ => (Ok [100; 101], u)
  | Text e => (Ok (if (e =? 100)%nat then "Huawei" else "Oppo"), u)
  | SelectByVisibleText _ _ => (Raise Sim.no_such_element, u)
  | SelectByIndex _ _ => (Ok tt, u)
  | ToExcel _ _ => (Ok tt, u)
  | Makedirs _ => (Ok tt, u)
  end.

Definition tick (n : nat) (u : unit) : unit := u.

Definition today (u : unit) : string := "2025-01-01".

Definition start : St Env :=
  mkSt tt 1 (mkWait 1 15 500) (mkWait 1 5 500) [] [] [].

End Blank.

(* ===================================================================== *)
(** * The scraper *)
(* ===================================================================== *)

Declare Scope prog_scope.
Delimit Scope prog_scope with prog.

Create HintDb keeps discriminated.

Section Scraper.

(** The environment: the browser sessions, the vendor's pages, the file
    system and the clock. [perform] answers a call, [tick] lets the time of
    a [time.sleep] pass, [today] is [datetime.now().strftime("%Y-%m-%d")]. *)
Variable Env : Type.
Variable perform : forall o : Op, Env -> Res (Ret o) * Env.
Variable tick : nat -> Env -> Env.
Variable today : Env -> string.

(** The arguments of [scrape_trade_in_prices] that its body reads
    ([delay] is accepted and never read). *)
Variable output_excel_path : string.
Variable n_scrape : option Z.
Variable headless : bool.

Definition M (A : Type) : Type := St Env -> Res A * St Env.

Definition ret {A} (a : A) : M A := fun s => (Ok a, s).

Definition bind {A B} (m : M A) (k : A -> M B) : M B :=
  fun s =>
    match m s with
    | (Ok a, s') => k a s'
    | (Raise e, s') => (Raise e, s')
    end.

(** [try: m except Exception as e: h e]; what [m] did before it raised
    stays done. *)
Definition try_except {A} (m : M A) (h : PyExn -> M A) : M A :=
  fun s =>
    match m s with
    | (Ok a, s') => (Ok a, s')
    | (Raise e, s') => h e s'
    end.

(** A pure step that may raise. *)
Definition lift {A} (r : Res A) : M A := fun s => (r, s).

(** A call into the environment, recorded in the trace. *)
Definition call (o : Op) : M (Ret o) :=
  fun s =>
    let '(r, env') := perform o (env s) in
    (r, mkSt env' (driver s) (wait s) (short_wait s) (results_df s)
          (trace s ++ [o]) (stdout s)).

(** [time.sleep(n)]. *)
Definition sleep (n : nat) : M unit :=
  fun s =>
    (Ok tt, mkSt (tick n (env s)) (driver s) (wait s) (short_wait s)
              (results_df s) (trace s) (stdout s)).

(** [print(msg)]. *)
Definition print (msg : string) : M unit :=
  fun s =>
    (Ok tt, mkSt (env s) (driver s) (wait s) (short_wait s) (results_df s)
              (trace s) (stdout s ++ [msg])).

Definition get_driver : M Driver := fun s => (Ok (driver s), s).
Definition get_wait : M WebDriverWait := fun s => (Ok (wait s), s).
Definition get_short_wait : M WebDriverWait := fun s => (Ok (short_wait s), s).
Definition get_results_df : M DataFrame := fun s => (Ok (results_df s), s).
Definition get_today : M string := fun s => (Ok (today (env s)), s).

Definition set_driver (d : Driver) : M unit :=
  fun s => (Ok tt, mkSt (env s) d (wait s) (short_wait s) (results_df s)
                     (trace s) (stdout s)).
Definition set_wait (w : WebDriverWait) : M unit :=
  fun s => (Ok tt, mkSt (env s) (driver s) w (short_wait s) (results_df s)
                     (trace s) (stdout s)).
Definition set_short_wait (w : WebDriverWait) : M unit :=
  fun s => (Ok tt, mkSt (env s) (driver s) (wait s) w (results_df s)
                     (trace s) (stdout s)).
Definition set_results_df (df : DataFrame) : M unit :=
  fun s => (Ok tt, mkSt (env s) (driver s) (wait s) (short_wait s) df
                     (trace s) (stdout s)).

Notation "x ← y ; z" := (bind y (fun x => z))
  (at level 20, y at level 100, z at level 200, only parsing) : prog_scope.
Notation "x ;; z" := (bind x (fun _ => z))
  (at level 100, z at level 200, only parsing, right associativity) : prog_scope.
Local Open Scope prog_scope.

(** A [for] loop whose body may [continue] or [break]. *)
Fixpoint for_each {X} (xs : list X) (body : X -> M Flow) : M unit :=
  match xs with
  | [] => ret tt
  | x :: xs' =>
      c ← body x;
      match c with
      | Break => ret tt
      | _ => for_each xs' body
      end
  end.

(** A [for] loop with a plain body. *)
Fixpoint for_ {X} (xs : list X) (body : X -> M unit) : M unit :=
  match xs with
  | [] => ret tt
  | x :: xs' => body x;; for_ xs' body
  end.

(** ** setup_driver (lines 16-51) *)

Definition chrome_options (headless : bool) : ChromeOptions :=
  {| arguments :=
       (if headless then ["--headless=new"] else []) ++
       ["--no-sandbox"; "--disable-dev-shm-usage"; "--disable-gpu";
        "--window-size=1920,1080"; "--start-maximized";
        "--disable-blink-features=AutomationControlled";
        "user-agent=Mozilla/5.0 (Windows NT 10.0; Win64; x64) AppleWebKit/537.36 (KHTML, like Gecko) Chrome/116.0.0.0 Safari/537.36"];
     experimental_options :=
       [("excludeSwitches", OptList ["enable-automation"]);
        ("useAutomationExtension", OptBool false)];
     page_load_strategy := "eager" |}.

Definition setup_driver (headless : bool) : M Driver :=
  driver ← call (NewChrome (chrome_options headless));
  call (SetPageLoadTimeout driver 60);;
  call (ExecuteScript driver anti_detection_script []);;
  ret driver.

(** ** The nested helpers (lines 96-134) *)

Definition js_click (element : WebElement) : M unit :=
  d ← get_driver;
  call (ExecuteScript d click_script [element]);;
  ret tt.

Definition js_check_radio (element_id : string) : M PyVal :=
  try_except
    (d ← get_driver;
     call (ExecuteScript d (check_radio_script element_id) []))
    (fun e =>
       print ("[ERROR] Failed to check radio " +:+ element_id +:+ ": "
              +:+ exn_text e);;
       ret (PyBool false)).

Definition js_check_checkbox (element_id : string) (check : bool) : M PyVal :=
  try_except
    (d ← get_driver;
     call (ExecuteScript d (check_checkbox_script element_id check) []))
    (fun e =>
       print ("[ERROR] Failed to check checkbox " +:+ element_id +:+ ": "
              +:+ exn_text e);;
       ret (PyBool false)).

(** ** select_screen_condition (lines 137-208) *)

(** Lines 158-208: methods 2 and 3, tried when the direct script did
    not select the radio. *)
Definition select_by_other_methods (condition element_id : string) : M bool :=
  (* Method 2: by name and value *)
  found ← try_except
    (d ← get_driver;
     result ← call (ExecuteScript d (radio_by_value_script element_id) []);
     if py_truthy result then
       print ("[INFO] Selected " +:+ condition +:+ " using name/value JS method");;
       ret true
     else ret false)
    (fun e =>
       print ("[ERROR] Failed to select using name/value: " +:+ exn_text e);;
       ret false);
  if found then ret true else
  (* Method 3: by label text *)
  found ← try_except
    (d ← get_driver;
     result ← call (ExecuteScript d (radio_by_label_script condition) []);
     if py_truthy result then
       print ("[INFO] Selected " +:+ condition +:+ " using text content method");;
       ret true
     else ret false)
    (fun e =>
       print ("[ERROR] Failed to select using text content: " +:+ exn_text e);;
       ret false);
  if found then ret true else
  print ("[ERROR] All methods to select " +:+ condition +:+ " failed");;
  ret false.

Definition select_screen_condition (condition : string) : M bool :=
  print ("[INFO] Selecting screen condition: " +:+ condition);;
  match condition_id_map !! condition with
  | Some element_id =>
      if negb (PyStr.truthy element_id) then
        print ("[ERROR] Unknown condition: " +:+ condition);;
        ret false
      else
        (* Method 1: direct script *)
        result ← js_check_radio element_id;
        if py_truthy result then
          print ("[INFO] Selected " +:+ condition +:+ " using direct JS method");;
          ret true
        else select_by_other_methods condition element_id
  | None =>
      print ("[ERROR] Unknown condition: " +:+ condition);;
      ret false
  end.

(** ** fill_form (lines 211-252) *)

(** Step 2 of [fill_form], lines 226-231: [true] when the step lets the
    function go on, [false] when it made it return [False]. *)
Definition select_body_condition : M bool :=
  try_except
    (body_flawless_checked ← js_check_radio "CPBP01";
     print ("[INFO] Body Flawless checked: " +:+ py_str body_flawless_checked);;
     ret true)
    (fun e =>
       print ("[ERROR] Failed to select body condition: " +:+ exn_text e);;
       ret false).

(** Step 3 of [fill_form], lines 237-248. *)
Definition set_issues : M bool :=
  try_except
    (for_ issue_checkboxes
       (fun issue_id => js_check_checkbox issue_id false;; ret tt);;
     none_checked ← js_check_checkbox "CISS" true;
     print ("[INFO] 'None of the above' checked: " +:+ py_str none_checked);;
     ret true)
    (fun e =>
       print ("[ERROR] Failed to set issues: " +:+ exn_text e);;
       ret false).

(** Lines 222-252: what [fill_form] does once the screen condition is
    selected. *)
Definition finish_form : M bool :=
  sleep 1;;
  go_on ← select_body_condition;
  if negb go_on then ret false else
  sleep 1;;
  go_on ← set_issues;
  if negb go_on then ret false else
  sleep 1;;
  ret true.

Definition fill_form (screen_condition : string) : M bool :=
  print ("[INFO] Filling form with screen condition: " +:+ screen_condition);;
  sleep 1;;
  selected ← select_screen_condition screen_condition;
  if negb selected then
    print ("[ERROR] Failed to select screen condition: " +:+ screen_condition);;
    ret false
  else finish_form.

(** ** extract_price (lines 255-301) *)

(** The loop over the selectors, lines 268-276: the stripped text of the
    first selector whose wait and text both answer, [None] otherwise. *)
Fixpoint find_price_text (selectors : list string) : M PyVal :=
  match selectors with
  | [] => ret PyNone
  | selector :: rest =>
      found ← try_except
        (w ← get_short_wait;
         price_element ←
           call (Until w (visibility_of_element_located By_CSS_SELECTOR selector));
         t ← call (Text price_element);
         let price_text := PyStr.strip t in
         print ("[INFO] Found price using selector '" +:+ selector +:+ "': "
                +:+ price_text);;
         ret (Some price_text))
        (fun _ => ret None);
      match found with
      | Some price_text => ret (PyStr price_text)
      | None => find_price_text rest
      end
  end.

Definition extract_price : M string :=
  try_except
    (sleep 1;;
     price_text ← find_price_text price_selectors;
     price_text ←
       (if negb (py_truthy price_text) then
          d ← get_driver;
          call (ExecuteScript d price_scan_script [])
        else ret price_text);
     lift (parse_price price_text))
    (fun e =>
       print ("[ERROR] Failed to extract price: " +:+ exn_text e);;
       ret "").

(** ** submit_form_and_get_price (lines 304-319) *)

Definition submit_form_and_get_price : M string :=
  try_except
    (d ← get_driver;
     submit_button ←
       call (FindElement d By_CSS_SELECTOR "input.btn.btn-success[type='submit']");
     js_click submit_button;;
     print "[INFO] Submit button clicked";;
     sleep 1;;
     price ← extract_price;
     ret price)
    (fun e =>
       print ("[ERROR] Form submission failed: " +:+ exn_text e);;
       ret "").

(** ** The main loop (lines 322-553) *)

(** Lines 343-364: the frame switch of the brand pass. *)
Definition switch_to_iframe_of_brand : M Flow :=
  try_except
    (w ← get_wait;
     call (Until w (presence_of_element_located By_TAG_NAME "iframe"));;
     print "[INFO] Found iframe, page is ready";;
     sleep 1;;
     d ← get_driver;
     iframes ← call (FindElements d By_TAG_NAME "iframe");
     print ("[INFO] Found " +:+ PyStr.str_of_nat (length iframes) +:+ " iframe(s)");;
     if (length iframes =? 0)%nat then
       print "[ERROR] No iframes found";;
       ret Continue
     else
       d ← get_driver;
       call (SwitchToFrame d 0);;
       print "[INFO] Switched to iframe";;
       sleep 1;;
       ret Fallthrough)
    (fun e =>
       print ("[ERROR] Failed to switch to iframe: " +:+ exn_text e);;
       ret Continue).

(** Lines 375-378: the texts of the options that are not the placeholder,
    stripped. Every [option.text] is a call of its own. *)
Fixpoint read_available_brands (options : list WebElement)
    (available_brands : list string) : M (list string) :=
  match options with
  | [] => ret available_brands
  | option :: rest =>
      t1 ← call (Text option);
      if negb (String.eqb t1 "Select One") then
        t2 ← call (Text option);
        if negb (String.eqb (PyStr.strip t2) "") then
          t3 ← call (Text option);
          read_available_brands rest (available_brands ++ [PyStr.strip t3])
        else read_available_brands rest available_brands
      else read_available_brands rest available_brands
  end.

(** Lines 405-408: the same for the models, which keep their text as is. *)
Fixpoint read_models (options : list WebElement) (models : list string)
    : M (list string) :=
  match options with
  | [] => ret models
  | option :: rest =>
      t1 ← call (Text option);
      if negb (String.eqb t1 "Select One") then
        t2 ← call (Text option);
        if negb (String.eqb (PyStr.strip t2) "") then
          t3 ← call (Text option);
          read_models rest (models ++ [t3])
        else read_models rest models
      else read_models rest models
  end.

(** Lines 382-396: the brand selection of the brand pass. *)
Definition select_brand_of_brand_pass (select_brand : WebElement)
    (brand : string) (available_brands : list string) : M unit :=
  let brand_match := List.find (brand_matches brand) available_brands in
  match brand_match with
  | Some m =>
      if PyStr.truthy m then
        call (SelectByVisibleText select_brand m);;
        print ("[INFO] Selected brand: " +:+ m)
      else
        let index := fallback_index brand in
        call (SelectByIndex select_brand index);;
        print ("[INFO] Selected brand by index: " +:+ PyStr.str_of_nat index)
  | None =>
      let index := fallback_index brand in
      call (SelectByIndex select_brand index);;
      print ("[INFO] Selected brand by index: " +:+ PyStr.str_of_nat index)
  end.

(** Lines 368-418: the body of the try block that lists the models. *)
Definition load_models (brand : string) : M (list string) :=
  sleep 1;;
  w ← get_wait;
  select_brand_element ←
    call (Until w (presence_of_element_located By_ID "manufacturer"));
  call (NewSelect select_brand_element);;
  options ← call (Options select_brand_element);
  available_brands ← read_available_brands options [];
  print ("[INFO] Available brands: " +:+ repr_list available_brands);;
  select_brand_of_brand_pass select_brand_element brand available_brands;;
  sleep 1;;
  w ← get_wait;
  select_model_element ←
    call (Until w (presence_of_element_located By_ID "tinProduct"));
  call (NewSelect select_model_element);;
  options ← call (Options select_model_element);
  models ← read_models options [];
  print ("[INFO] Found " +:+ PyStr.str_of_nat (length models) +:+ " models for "
         +:+ brand);;
  match n_scrape with
  | Some n =>
      let models := slice_to models n in
      print ("[INFO] Limited to " +:+ PyStr.str_of_nat (length models)
             +:+ " models for testing");;
      ret models
  | None =>
      print ("[INFO] Processing all " +:+ PyStr.str_of_nat (length models)
             +:+ " models");;
      ret models
  end.

(** Lines 439-452: the frame switch of a work unit. *)
Definition switch_to_iframe : M Flow :=
  try_except
    (w ← get_wait;
     call (Until w (presence_of_element_located By_TAG_NAME "iframe"));;
     sleep 1;;
     d ← get_driver;
     iframes ← call (FindElements d By_TAG_NAME "iframe");
     if (0 <? length iframes)%nat then
       d ← get_driver;
       call (SwitchToFrame d 0);;
       sleep 1;;
       ret Fallthrough
     else
       print "[ERROR] No iframes found, cannot proceed";;
       ret Continue)
    (fun e =>
       print ("[ERROR] Failed to switch to iframe: " +:+ exn_text e);;
       ret Continue).

(** Lines 465-469: the first option whose text matches the brand, the
    placeholder included. *)
Fixpoint find_brand_match (brand : string) (options : list WebElement)
    : M (option string) :=
  match options with
  | [] => ret None
  | option :: rest =>
      t1 ← call (Text option);
      matched ←
        (if PyStr.contains (PyStr.lower brand) (PyStr.lower t1) then ret true
         else
           t2 ← call (Text option);
           ret (PyStr.contains (PyStr.lower t2) (PyStr.lower brand)));
      if (matched : bool) then
        t3 ← call (Text option);
        ret (Some t3)
      else find_brand_match brand rest
  end.

(** Lines 462-480: the brand selection of a work unit. *)
Definition select_brand_of_unit (select_brand : WebElement) (brand : string)
    : M unit :=
  try_except
    (options ← call (Options select_brand);
     brand_match ← find_brand_match brand options;
     match brand_match with
     | Some m =>
         if PyStr.truthy m then call (SelectByVisibleText select_brand m)
         else call (SelectByIndex select_brand (fallback_index brand))
     | None => call (SelectByIndex select_brand (fallback_index brand))
     end)
    (fun _ => call (SelectByIndex select_brand (fallback_index brand))).

(** Lines 456-502: from the brand dropdown to the condition form. *)
Definition open_condition_form (brand model : string) : M unit :=
  sleep 1;;
  w ← get_wait;
  select_brand_element ←
    call (Until w (presence_of_element_located By_ID "manufacturer"));
  call (NewSelect select_brand_element);;
  select_brand_of_unit select_brand_element brand;;
  sleep 1;;
  w ← get_wait;
  select_model_element ←
    call (Until w (presence_of_element_located By_ID "tinProduct"));
  call (NewSelect select_model_element);;
  call (SelectByVisibleText select_model_element model);;
  print ("[INFO] Selected model: " +:+ model);;
  sleep 1;;
  w ← get_wait;
  next_button ←
    call (Until w (element_to_be_clickable By_CSS_SELECTOR "a.btn.btn-success"));
  d ← get_driver;
  call (ExecuteScript d scroll_script [next_button]);;
  sleep 1;;
  js_click next_button;;
  print "[INFO] Clicked Next button";;
  sleep 1.

(** Line 526: [results_df = pd.concat([results_df, pd.DataFrame([result])],
    ignore_index=True)]. *)
Definition append_result (result : gmap string string) : M unit :=
  df ← get_results_df;
  set_results_df (df ++ [result]).

(** Lines 506-527: submit, build the entry, append it. *)
Definition record_quote (defaults : gmap string string)
    (brand model condition : string) : M unit :=
  price ← submit_form_and_get_price;
  let result := make_result defaults brand model condition price in
  append_result result;;
  print ("[INFO] Added result: " +:+ brand +:+ " " +:+ model +:+ " " +:+ condition
         +:+ " - RM" +:+ price).

(** Lines 529-537: the save after every work unit. The [else] belongs to
    the test on the length. *)
Definition save_progress (condition : string) : M unit :=
  df ← get_results_df;
  if (length df mod 1 =? 0)%nat then
    try_except
      (call (ToExcel df output_excel_path);;
       print ("[INFO] Saved progress to " +:+ output_excel_path))
      (fun save_error =>
         print ("[WARNING] Could not save progress: " +:+ exn_text save_error))
  else
    print ("[ERROR] Could not fill form for " +:+ condition).

(** Lines 455-537: the body of the try block of a work unit. *)
Definition work_unit (defaults : gmap string string)
    (brand model condition : string) : M unit :=
  open_condition_form brand model;;
  filled ← fill_form condition;
  (if filled then record_quote defaults brand model condition else ret tt);;
  save_progress condition.

(** Lines 547-551: a new session in place of the dead one. *)
Definition recreate_browser : M unit :=
  d ← get_driver;
  call (Quit d);;
  d' ← setup_driver headless;
  set_driver d';;
  d ← get_driver;
  set_wait (mkWait d 15 500);;
  d ← get_driver;
  set_short_wait (mkWait d 5 500).

(** Lines 539-553: the handler of a work unit. *)
Definition recover (model condition : string) (e : PyExn) : M Flow :=
  print ("[ERROR] Failed to process " +:+ model +:+ " with " +:+ condition
         +:+ ": " +:+ exn_text e);;
  c ← try_except
        (d ← get_driver;
         call (CurrentUrl d);;
         ret Fallthrough)
        (fun _ =>
           print "[WARNING] Browser appears to have crashed, recreating...";;
           recreate_browser;;
           ret Break);
  match c with
  | Fallthrough => ret Continue
  | c => ret c
  end.

(** Lines 430-452: a fresh page load and the frame switch. *)
Definition navigate (condition : string) : M Flow :=
  print (PyStr.nl +:+ "[INFO] Processing condition: " +:+ condition);;
  d ← get_driver;
  call (Get d URL);;
  sleep 1;;
  switch_to_iframe.

(** Lines 429-553: one pass of the loop over the conditions. *)
Definition process_condition (defaults : gmap string string)
    (brand model condition : string) : M Flow :=
  c ← navigate condition;
  match c with
  | Fallthrough =>
      try_except
        (work_unit defaults brand model condition;;
         ret Fallthrough)
        (recover model condition)
  | c => ret c
  end.

(** Lines 425-553: one pass of the loop over the models. *)
Definition process_model (defaults : gmap string string)
    (brand model : string) : M Flow :=
  print (PyStr.nl +:+ "[INFO] Processing model: " +:+ model);;
  for_each screen_conditions (process_condition defaults brand model);;
  ret Fallthrough.

(** Lines 330-553: one pass of the loop over the brands. *)
Definition process_brand (defaults : gmap string string) (brand : string)
    : M Flow :=
  print (PyStr.nl +:+ "[INFO] Processing brand: " +:+ brand);;
  sleep 1;;
  d ← get_driver;
  call (Get d URL);;
  sleep 1;;
  c ← switch_to_iframe_of_brand;
  match c with
  | Fallthrough =>
      loaded ← try_except
        (models ← load_models brand;
         ret (Some models))
        (fun e =>
           print ("[ERROR] Failed to get models for " +:+ brand +:+ ": "
                  +:+ exn_text e);;
           ret None);
      match loaded with
      | Some models =>
          for_each models (process_model defaults brand);;
          ret Fallthrough
      | None => ret Continue
      end
  | c => ret c
  end.

(** Lines 558-568: the last save. *)
Definition save_results : M unit :=
  try_except
    (df ← get_results_df;
     if negb (df_empty df) then
       let dir := PyStr.dirname output_excel_path in
       call (Makedirs (if PyStr.truthy dir then dir else "."));;
       call (ToExcel df output_excel_path);;
       print ("[INFO] Results saved to " +:+ output_excel_path)
     else ret tt)
    (fun e => print ("[ERROR] Failed to save results: " +:+ exn_text e)).

(** Lines 570-575: the browser is closed. *)
Definition close_browser : M unit :=
  try_except
    (d ← get_driver;
     call (Quit d);;
     print "[INFO] Browser closed")
    (fun _ => print "[WARNING] Browser may have already closed").

(** Lines 322-556: the main loop inside its try block. *)
Definition main_loop (defaults : gmap string string) : M unit :=
  try_except
    (for_each brands (process_brand defaults))
    (fun e => print ("[ERROR] Main process error: " +:+ exn_text e)).

(** Lines 558-577: the [finally] block, which returns. *)
Definition finish_run : M bool :=
  save_results;;
  close_browser;;
  df ← get_results_df;
  ret (negb (df_empty df)).

(** ** scrape_trade_in_prices (lines 53-577) *)

Definition scrape_trade_in_prices : M bool :=
  d ← setup_driver headless;
  set_driver d;;
  d ← get_driver;
  set_wait (mkWait d 15 500);;
  d ← get_driver;
  set_short_wait (mkWait d 5 500);;
  set_results_df [];;
  date ← get_today;
  let defaults := defaults_dict date in
  main_loop defaults;;
  finish_run.

(** ** The entry point of the script (lines 579-620) *)

(** [args.retry]; the other arguments of the command line are the
    arguments of [scrape_trade_in_prices] above, with [headless] standing
    for [not args.no_headless]. *)
Variable retry : Z.

(** [range(args.retry + 1)]. *)
Definition attempts : list nat := seq 0 (Z.to_nat (retry + 1)).

(** Lines 596-615: the loop over the attempts that are left; the value is
    the flag [success]. *)
Fixpoint retry_loop (attempts : list nat) : M bool :=
  match attempts with
  | [] => ret false
  | attempt :: rest =>
      (if (0 <? attempt)%nat then
         print (PyStr.nl +:+ "[INFO] Retry attempt " +:+ PyStr.str_of_nat attempt
                +:+ "/" +:+ PyStr.str_of_Z retry);;
         sleep 5
       else ret tt);;
      success ← try_except
        (result ← scrape_trade_in_prices;
         ret result)
        (fun e =>
           print ("[ERROR] Attempt " +:+ PyStr.str_of_nat (attempt + 1)
                  +:+ " failed with error: " +:+ exn_text e);;
           (if (Z.of_nat attempt <? retry)%Z then
              print "[INFO] Waiting before next retry...";;
              sleep 5
            else ret tt);;
           ret false);
      if (success : bool) then ret true else retry_loop rest
  end.

(** Lines 588-620; the value is the flag [success] at the end. *)
Definition main : M bool :=
  let dir := PyStr.dirname output_excel_path in
  call (Makedirs (if PyStr.truthy dir then dir else "."));;
  print ("Saving output to: " +:+ output_excel_path);;
  success ← retry_loop attempts;
  (if success then
     print "Script completed successfully. Results have been saved to the Excel file."
   else
     print "Script failed after all retry attempts.");;
  ret success.

(** [passes body xs s s']: the passes of a loop over [xs] all end without
    [break] and without raising, and lead from [s] to [s']. *)
Inductive passes {X} (body : X -> M Flow) : list X -> St Env -> St Env -> Prop :=
| passes_nil s : passes body [] s s
| passes_cons x xs s s1 s2 c :
    body x s = (Ok c, s1) -> c <> Break -> passes body xs s1 s2 ->
    passes body (x :: xs) s s2.

(** What C10 says of one row. *)
Definition device_type_ok (r : gmap string string) : Prop :=
  exists model,
    r !! "Model" = Some model /\
    ((PyStr.contains "iPhone" model = true \/ PyStr.contains "Galaxy" model = true)
       /\ r !! "Device Type" = Some "Smartphone"
     \/ (PyStr.contains "iPhone" model = false /\ PyStr.contains "Galaxy" model = false)
       /\ r !! "Device Type" = Some "Tablet").

(** The same of the row recorded for a work unit on [model]: the row
    carries that model, and its Device Type goes by that model. *)
Definition unit_device_type_ok (model : string) (r : gmap string string) : Prop :=
  r !! "Model" = Some model /\
  ((PyStr.contains "iPhone" model = true \/ PyStr.contains "Galaxy" model = true)
     /\ r !! "Device Type" = Some "Smartphone"
   \/ (PyStr.contains "iPhone" model = false /\ PyStr.contains "Galaxy" model = false)
     /\ r !! "Device Type" = Some "Tablet").

(** What C5 says of the text [extract_price] has obtained: the price is
    group 1 of the price pattern when the text is a string that carries
    the marker and the pattern matches in it, and the empty string in
    every other case. *)
Definition price_of_text (v : PyVal) : string :=
  match v with
  | PyStr t =>
      if PyStr.contains "RM" t then
        match Re.search_price t with
        | Some g => g
        | None => ""
        end
      else ""
  | _ => ""
  end.

(** [keeps f R m]: [m] takes every state to one whose [f] is [R]-related
    to the old. *)
Definition keeps {X A} (f : St Env -> X) (R : relation X) (m : M A) : Prop :=
  forall s, R (f s) (f (m s).2).

(** The steps that leave the interpreter or change a local other than
    [results_df] keep [f]. *)
Definition steps_keep {X} (f : St Env -> X) (R : relation X) : Prop :=
  (forall o, keeps f R (call o)) /\
  (forall n, keeps f R (sleep n)) /\
  (forall msg, keeps f R (print msg)) /\
  (forall d, keeps f R (set_driver d)) /\
  (forall w, keeps f R (set_wait w)) /\
  (forall w, keeps f R (set_short_wait w)).

(** [carries P]: the rows of the new table satisfy [P] if those of the
    old one do. *)
Definition carries (P : gmap string string -> Prop) : relation DataFrame :=
  fun df df' => Forall P df -> Forall P df'.

(** [returns Q m]: whenever [m] returns, the value has property [Q]. *)
Definition returns {A} (Q : A -> Prop) (m : M A) : Prop :=
  forall s a s', m s = (Ok a, s') -> Q a.

(** A decimal numeral: digits, or digits, a point and digits. *)
Definition is_decimal (p : string) : Prop :=
  exists d, d <> "" /\ PyStr.all_digits d = true /\
    (p = d \/
     exists f, f <> "" /\ PyStr.all_digits f = true /\ p = d +:+ "." +:+ f).

(** What [extract_price] can give: nothing, or a decimal numeral. *)
Definition price_ok (p : string) : Prop := p = "" \/ is_decimal p.

(** What every row of a run started on [date] looks like. *)
Definition row_ok (date : string) (r : gmap string string) : Prop :=
  dom r = list_to_set columns /\
  r !! "Country" = Some "Malaysia" /\
  r !! "Value Type" = Some "Trade-In" /\
  r !! "Currency" = Some "MYR" /\
  r !! "Source" = Some "MY_RV_Source5" /\
  r !! "Updated on" = Some date /\
  r !! "Color" = Some "" /\
  r !! "Launch RRP" = Some "" /\
  r !! "Updated by" = Some "" /\
  r !! "Comments" = Some "" /\
  (exists b, r !! "Brand" = Some b /\ b ∈ brands) /\
  (exists c, r !! "Condition" = Some c /\ c ∈ screen_conditions) /\
  (exists v, r !! "Value" = Some v /\ price_ok v).

(** The row of the work unit (brand, model, condition) of a run started on
    [date]. *)
Definition unit_row_ok (date brand model condition : string)
    (r : gmap string string) : Prop :=
  dom r = list_to_set columns /\
  r !! "Country" = Some "Malaysia" /\
  r !! "Value Type" = Some "Trade-In" /\
  r !! "Currency" = Some "MYR" /\
  r !! "Source" = Some "MY_RV_Source5" /\
  r !! "Updated on" = Some date /\
  r !! "Color" = Some "" /\
  r !! "Launch RRP" = Some "" /\
  r !! "Updated by" = Some "" /\
  r !! "Comments" = Some "" /\
  r !! "Brand" = Some brand /\
  r !! "Model" = Some model /\
  r !! "Condition" = Some condition /\
  (exists v, r !! "Value" = Some v /\ price_ok v).

(** The three locals that hold the session: the wait helpers are bound
    to the driver, with the timeouts of lines 73-74. *)
Definition waits_bound (s : St Env) : Prop :=
  wait s = mkWait (driver s) 15 500 /\ short_wait s = mkWait (driver s) 5 500.

(** Two states with the same session locals. *)
Definition same_session (s s' : St Env) : Prop :=
  driver s' = driver s /\ wait s' = wait s /\ short_wait s' = short_wait s.

(** The wait helpers are bound in the second state if they are in the
    first. *)
Definition stays_bound (s s' : St Env) : Prop := waits_bound s -> waits_bound s'.

(** [grows_by k m]: [m] adds at most [k] rows to the table, whether it
    returns or raises. *)
Definition grows_by {A} (k : nat) (m : M A) : Prop :=
  forall s, length (results_df (m s).2) <= length (results_df s) + k.


(** White space other than the space character: what [replace(" ", "")]
    leaves of a match of [\s*]. *)
Fixpoint all_gaps (w : string) : bool :=
  match w with
  | EmptyString => true
  | String c w' =>
      PyStr.is_space c && negb (Ascii.eqb c " "%char) && all_gaps w'
  end.

(** What the Capacity of a row can be: nothing, or digits and a unit. *)
Definition capacity_ok (cap : string) : Prop :=
  cap = "" \/
  exists d w u,
    d <> "" /\ PyStr.all_digits d = true /\ all_gaps w = true /\
    (u = "GB" \/ u = "TB") /\ cap = d +:+ w +:+ u.

(** The Capacity of the row of a work unit on [model]: what the capacity
    pattern matches in the name of the model, without its space
    characters, and nothing when the pattern does not match. *)
Definition unit_capacity_ok (model : string) (r : gmap string string) : Prop :=
  r !! "Model" = Some model /\
  exists cap,
    r !! "Capacity" = Some cap /\
    cap = match Re.search_capacity model with
          | Some g => PyStr.remove_spaces g
          | None => ""
          end /\
    capacity_ok cap.

Definition capacity_column_ok (r : gmap string string) : Prop :=
  exists model, unit_capacity_ok model r.

(** [m] cannot raise. *)
Definition total {A} (m : M A) : Prop := forall s, exists a s', m s = (Ok a, s').

(** [m] cannot raise and returns a value with property [Q]. *)
Definition always {A} (Q : A -> Prop) (m : M A) : Prop :=
  forall s, exists a s', m s = (Ok a, s') /\ Q a.

(* ===================================================================== *)
(** * Reasoning about computations *)
(* ===================================================================== *)

Lemma bind_ok {A B} (m : M A) (k : A -> M B) s a s' :
  m s = (Ok a, s') -> bind m k s = k a s'.
Proof. intros H. unfold bind. now rewrite H. Qed.

Lemma bind_raise {A B} (m : M A) (k : A -> M B) s e s' :
  m s = (Raise e, s') -> bind m k s = (Raise e, s').
Proof. intros H. unfold bind. now rewrite H. Qed.

Lemma bind_Ok_inv {A B} (m : M A) (k : A -> M B) s b s' :
  bind m k s = (Ok b, s') ->
  exists a s1, m s = (Ok a, s1) /\ k a s1 = (Ok b, s').
Proof.
  unfold bind. destruct (m s) as [[a|e] s1]; [eauto | discriminate].
Qed.

Lemma try_ok {A} (m : M A) h s a s' :
  m s = (Ok a, s') -> try_except m h s = (Ok a, s').
Proof. intros H. unfold try_except. now rewrite H. Qed.

Lemma try_raise {A} (m : M A) h s e s' :
  m s = (Raise e, s') -> try_except m h s = h e s'.
Proof. intros H. unfold try_except. now rewrite H. Qed.

Lemma bind_ret {A B} (a : A) (k : A -> M B) s : bind (ret a) k s = k a s.
Proof. reflexivity. Qed.

Lemma bind_print {B} msg (k : unit -> M B) s :
  bind (print msg) k s =
    k tt (mkSt (env s) (driver s) (wait s) (short_wait s) (results_df s)
               (trace s) (stdout s ++ [msg])).
Proof. reflexivity. Qed.

Lemma bind_sleep {B} n (k : unit -> M B) s :
  bind (sleep n) k s =
    k tt (mkSt (tick n (env s)) (driver s) (wait s) (short_wait s)
               (results_df s) (trace s) (stdout s)).
Proof. reflexivity. Qed.

Lemma bind_get_driver {B} (k : Driver -> M B) s :
  bind get_driver k s = k (driver s) s.
Proof. reflexivity. Qed.

Lemma bind_get_wait {B} (k : WebDriverWait -> M B) s :
  bind get_wait k s = k (wait s) s.
Proof. reflexivity. Qed.

Lemma bind_get_short_wait {B} (k : WebDriverWait -> M B) s :
  bind get_short_wait k s = k (short_wait s) s.
Proof. reflexivity. Qed.

Lemma bind_get_results_df {B} (k : DataFrame -> M B) s :
  bind get_results_df k s = k (results_df s) s.
Proof. reflexivity. Qed.

Lemma bind_set_driver {B} d (k : unit -> M B) s :
  bind (set_driver d) k s =
    k tt (mkSt (env s) d (wait s) (short_wait s) (results_df s) (trace s)
               (stdout s)).
Proof. reflexivity. Qed.

Lemma bind_set_wait {B} w (k : unit -> M B) s :
  bind (set_wait w) k s =
    k tt (mkSt (env s) (driver s) w (short_wait s) (results_df s) (trace s)
               (stdout s)).
Proof. reflexivity. Qed.

Lemma bind_set_short_wait {B} w (k : unit -> M B) s :
  bind (set_short_wait w) k s =
    k tt (mkSt (env s) (driver s) (wait s) w (results_df s) (trace s)
               (stdout s)).
Proof. reflexivity. Qed.

Lemma bind_set_results_df {B} df (k : unit -> M B) s :
  bind (set_results_df df) k s =
    k tt (mkSt (env s) (driver s) (wait s) (short_wait s) df (trace s)
               (stdout s)).
Proof. reflexivity. Qed.

Lemma bind_assoc {A B C} (m : M A) (k : A -> M B) (k' : B -> M C) s :
  bind (bind m k) k' s = bind m (fun a => bind (k a) k') s.
Proof. unfold bind. now destruct (m s) as [[a|e] s1]. Qed.

Lemma bind_get_today {B} (k : string -> M B) s :
  bind get_today k s = k (today (env s)) s.
Proof. reflexivity. Qed.

Lemma bind_call {B} o (k : Ret o -> M B) s :
  bind (call o) k s =
    match perform o (env s) with
    | (Ok a, env') =>
        k a (mkSt env' (driver s) (wait s) (short_wait s) (results_df s)
                  (trace s ++ [o]) (stdout s))
    | (Raise e, env') =>
        (Raise e, mkSt env' (driver s) (wait s) (short_wait s) (results_df s)
                       (trace s ++ [o]) (stdout s))
    end.
Proof. unfold bind, call. now destruct (perform o (env s)) as [[a|e] env']. Qed.

(** Run the steps at the head of a computation that need no answer of
    the environment. *)
Ltac run :=
  repeat progress
    (rewrite ?bind_ret, ?bind_print, ?bind_sleep, ?bind_get_driver,
       ?bind_get_wait, ?bind_get_short_wait, ?bind_get_results_df,
       ?bind_get_today, ?bind_set_driver, ?bind_set_wait,
       ?bind_set_short_wait, ?bind_set_results_df;
     cbn [env driver wait short_wait results_df trace stdout]).

Lemma for_each_app_passes {X} (body : X -> M Flow) xs ys s s1 :
  passes body xs s s1 -> for_each (xs ++ ys) body s = for_each ys body s1.
Proof.
  induction 1 as [|x xs s s1 s2 c Hx Hc _ IH]; [reflexivity|].
  cbn [app for_each]. rewrite (bind_ok _ _ _ _ _ Hx).
  destruct c; [exact IH | exact IH | congruence].
Qed.

(** ** Quantities that a computation keeps in relation *)

Section Keeps.

Context {X : Type} (f : St Env -> X) (R : relation X) `{!PreOrder R}.

Local Abbreviation kept m := (keeps f R m).

Lemma keeps_ret {A} (a : A) : kept (ret a).
Proof. intros s. reflexivity. Qed.

Lemma keeps_lift {A} (r : Res A) : kept (lift r).
Proof. intros s. reflexivity. Qed.

Lemma keeps_bind {A B} (m : M A) (k : A -> M B) :
  kept m -> (forall a, kept (k a)) -> kept (bind m k).
Proof.
  intros Hm Hk s. unfold bind. specialize (Hm s).
  destruct (m s) as [[a|e] s1]; cbn in *; [|exact Hm].
  etransitivity; [exact Hm | apply Hk].
Qed.

Lemma keeps_try {A} (m : M A) (h : PyExn -> M A) :
  kept m -> (forall e, kept (h e)) -> kept (try_except m h).
Proof.
  intros Hm Hh s. unfold try_except. specialize (Hm s).
  destruct (m s) as [[a|e] s1]; cbn in *; [exact Hm|].
  etransitivity; [exact Hm | apply Hh].
Qed.

Lemma keeps_get_driver : kept get_driver.
Proof. intros s. reflexivity. Qed.
Lemma keeps_get_wait : kept get_wait.
Proof. intros s. reflexivity. Qed.
Lemma keeps_get_short_wait : kept get_short_wait.
Proof. intros s. reflexivity. Qed.
Lemma keeps_get_results_df : kept get_results_df.
Proof. intros s. reflexivity. Qed.
Lemma keeps_get_today : kept get_today.
Proof. intros s. reflexivity. Qed.

Lemma keeps_for_each {Y} (xs : list Y) (body : Y -> M Flow) :
  (forall x, kept (body x)) -> kept (for_each xs body).
Proof.
  intros Hb. induction xs as [|x xs IH]; cbn [for_each].
  - apply keeps_ret.
  - apply keeps_bind; [apply Hb|]. intros [| |]; auto using keeps_ret.
Qed.

Lemma keeps_for_ {Y} (xs : list Y) (body : Y -> M unit) :
  (forall x, kept (body x)) -> kept (for_ xs body).
Proof.
  intros Hb. induction xs as [|x xs IH]; cbn [for_].
  - apply keeps_ret.
  - apply keeps_bind; [apply Hb|]. intros _. exact IH.
Qed.

(** Assumed here, proved at every instance. *)
Hypothesis Hsteps : steps_keep f R.

Lemma keeps_call o : kept (call o).
Proof. apply Hsteps. Qed.
Lemma keeps_sleep n : kept (sleep n).
Proof. apply Hsteps. Qed.
Lemma keeps_print msg : kept (print msg).
Proof. apply Hsteps. Qed.
Lemma keeps_set_driver d : kept (set_driver d).
Proof. apply Hsteps. Qed.
Lemma keeps_set_wait w : kept (set_wait w).
Proof. apply Hsteps. Qed.
Lemma keeps_set_short_wait w : kept (set_short_wait w).
Proof. apply Hsteps. Qed.

Local Hint Resolve keeps_ret keeps_lift keeps_get_driver keeps_get_wait
  keeps_get_short_wait keeps_get_results_df keeps_call
  keeps_sleep keeps_print keeps_set_driver keeps_set_wait
  keeps_set_short_wait : keeps.

Ltac keeps_step :=
  lazymatch goal with
  | |- keeps _ _ (bind _ _) => apply keeps_bind; [|intros ?]
  | |- keeps _ _ (try_except _ _) => apply keeps_try; [|intros ?]
  | |- keeps _ _ (for_each _ _) => apply keeps_for_each; intros ?
  | |- keeps _ _ (for_ _ _) => apply keeps_for_; intros ?
  | |- keeps _ _ (match ?x with _ => _ end) => destruct x
  | |- keeps _ _ (let _ := _ in _) => cbv zeta
  | |- keeps _ _ (call ?o) => exact (keeps_call o)
  | |- keeps _ _ _ => solve [auto with keeps]
  end.

Ltac keeps_tac := repeat keeps_step.

Lemma keeps_setup_driver h : kept (setup_driver h).
Proof. unfold setup_driver. keeps_tac. Qed.

Lemma keeps_js_click e : kept (js_click e).
Proof. unfold js_click. keeps_tac. Qed.

Lemma keeps_js_check_radio i : kept (js_check_radio i).
Proof. unfold js_check_radio. keeps_tac. Qed.

Lemma keeps_js_check_checkbox i b : kept (js_check_checkbox i b).
Proof. unfold js_check_checkbox. keeps_tac. Qed.

Local Hint Resolve keeps_setup_driver keeps_js_click keeps_js_check_radio
  keeps_js_check_checkbox : keeps.

Lemma keeps_select_by_other_methods c i : kept (select_by_other_methods c i).
Proof. unfold select_by_other_methods. keeps_tac. Qed.

Local Hint Resolve keeps_select_by_other_methods : keeps.

Lemma keeps_select_screen_condition c : kept (select_screen_condition c).
Proof. unfold select_screen_condition. keeps_tac. Qed.

Lemma keeps_select_body_condition : kept select_body_condition.
Proof. unfold select_body_condition. keeps_tac. Qed.

Lemma keeps_set_issues : kept set_issues.
Proof. unfold set_issues. keeps_tac. Qed.

Local Hint Resolve keeps_select_screen_condition keeps_select_body_condition
  keeps_set_issues : keeps.

Lemma keeps_finish_form : kept finish_form.
Proof. unfold finish_form. keeps_tac. Qed.

Local Hint Resolve keeps_finish_form : keeps.

Lemma keeps_fill_form c : kept (fill_form c).
Proof. unfold fill_form. keeps_tac. Qed.

Lemma keeps_find_price_text l : kept (find_price_text l).
Proof. induction l as [|x l IH]; cbn [find_price_text]; keeps_tac. Qed.

Local Hint Resolve keeps_fill_form keeps_find_price_text : keeps.

Lemma keeps_extract_price : kept extract_price.
Proof. unfold extract_price. keeps_tac. Qed.

Local Hint Resolve keeps_extract_price : keeps.

Lemma keeps_submit_form_and_get_price : kept submit_form_and_get_price.
Proof. unfold submit_form_and_get_price. keeps_tac. Qed.

Lemma keeps_switch_to_iframe_of_brand : kept switch_to_iframe_of_brand.
Proof. unfold switch_to_iframe_of_brand. keeps_tac. Qed.

Lemma keeps_switch_to_iframe : kept switch_to_iframe.
Proof. unfold switch_to_iframe. keeps_tac. Qed.

Lemma keeps_read_available_brands l acc : kept (read_available_brands l acc).
Proof.
  revert acc. induction l as [|x l IH]; intros acc;
    cbn [read_available_brands]; keeps_tac.
Qed.

Lemma keeps_read_models l acc : kept (read_models l acc).
Proof.
  revert acc. induction l as [|x l IH]; intros acc;
    cbn [read_models]; keeps_tac.
Qed.

Lemma keeps_find_brand_match b l : kept (find_brand_match b l).
Proof. induction l as [|x l IH]; cbn [find_brand_match]; keeps_tac. Qed.

Local Hint Resolve keeps_submit_form_and_get_price
  keeps_switch_to_iframe_of_brand keeps_switch_to_iframe
  keeps_read_available_brands keeps_read_models keeps_find_brand_match : keeps.

Lemma keeps_select_brand_of_brand_pass e b l :
  kept (select_brand_of_brand_pass e b l).
Proof. unfold select_brand_of_brand_pass. keeps_tac. Qed.

Lemma keeps_select_brand_of_unit e b : kept (select_brand_of_unit e b).
Proof. unfold select_brand_of_unit. keeps_tac. Qed.

Local Hint Resolve keeps_select_brand_of_brand_pass
  keeps_select_brand_of_unit : keeps.

Lemma keeps_load_models b : kept (load_models b).
Proof. unfold load_models. keeps_tac. Qed.

Lemma keeps_open_condition_form b m : kept (open_condition_form b m).
Proof. unfold open_condition_form. keeps_tac. Qed.

Lemma keeps_save_progress c : kept (save_progress c).
Proof. unfold save_progress. keeps_tac. Qed.

Lemma keeps_recreate_browser : kept recreate_browser.
Proof. unfold recreate_browser. keeps_tac. Qed.

Local Hint Resolve keeps_load_models keeps_open_condition_form
  keeps_save_progress keeps_recreate_browser : keeps.

Lemma keeps_recover m c e : kept (recover m c e).
Proof. unfold recover. keeps_tac. Qed.

Lemma keeps_navigate c : kept (navigate c).
Proof. unfold navigate. keeps_tac. Qed.

Lemma keeps_save_results : kept save_results.
Proof. unfold save_results. keeps_tac. Qed.

Lemma keeps_close_browser : kept close_browser.
Proof. unfold close_browser. keeps_tac. Qed.

Local Hint Resolve keeps_recover keeps_navigate keeps_save_results
  keeps_close_browser : keeps.

(** Appending the entry of a work unit is the one step that is particular
    to [f] and [R]. *)
Hypothesis keeps_append : forall defaults brand model condition price,
  kept (append_result (make_result defaults brand model condition price)).

Local Hint Resolve keeps_append : keeps.

Lemma keeps_record_quote d b m c : kept (record_quote d b m c).
Proof. unfold record_quote. keeps_tac. Qed.

Local Hint Resolve keeps_record_quote : keeps.

Lemma keeps_work_unit d b m c : kept (work_unit d b m c).
Proof. unfold work_unit. keeps_tac. Qed.

Local Hint Resolve keeps_work_unit : keeps.

Lemma keeps_process_condition d b m c : kept (process_condition d b m c).
Proof. unfold process_condition. keeps_tac. Qed.

Local Hint Resolve keeps_process_condition : keeps.

Lemma keeps_process_model d b m : kept (process_model d b m).
Proof. unfold process_model. keeps_tac. Qed.

Local Hint Resolve keeps_process_model : keeps.

Lemma keeps_process_brand d b : kept (process_brand d b).
Proof. unfold process_brand. keeps_tac. Qed.

Local Hint Resolve keeps_process_brand : keeps.

Lemma keeps_main_loop d : kept (main_loop d).
Proof. unfold main_loop. keeps_tac. Qed.

Lemma keeps_finish_run : kept finish_run.
Proof. unfold finish_run. keeps_tac. Qed.

End Keeps.

(** ** Instances *)

Lemma steps_keep_df (R : relation DataFrame) `{!PreOrder R} :
  steps_keep results_df R.
Proof.
  repeat split; intros ? s; try reflexivity.
  unfold call. destruct (perform _ _). reflexivity.
Qed.

Lemma steps_keep_trace : steps_keep trace prefix.
Proof.
  repeat split; intros ? s; try reflexivity.
  unfold call. destruct (perform _ _). cbn. now apply prefix_app_r.
Qed.

Lemma append_keeps_trace r : keeps trace prefix (append_result r).
Proof. intros s. reflexivity. Qed.

Lemma append_keeps_prefix r : keeps results_df prefix (append_result r).
Proof. intros s. cbn. now apply prefix_app_r. Qed.

#[local] Instance carries_preorder P : PreOrder (carries P).
Proof. split; [intros df; exact id | intros a b c Hab Hbc H; auto]. Qed.

Lemma append_carries P r : P r -> keeps results_df (carries P) (append_result r).
Proof. intros Hr s H. cbn. apply Forall_app. split; [exact H | now constructor]. Qed.

(** ** Computations that cannot raise *)

Lemma total_ret {A} (a : A) : total (ret a).
Proof. intros s. now eexists _, _. Qed.

Lemma total_bind {A B} (m : M A) (k : A -> M B) :
  total m -> (forall a, total (k a)) -> total (bind m k).
Proof.
  intros Hm Hk s. destruct (Hm s) as (a & s1 & E).
  rewrite (bind_ok _ _ _ _ _ E). apply Hk.
Qed.

Lemma total_try {A} (m : M A) (h : PyExn -> M A) :
  (forall e, total (h e)) -> total (try_except m h).
Proof.
  intros Hh s. unfold try_except. destruct (m s) as [[a|e] s1].
  - now eexists _, _.
  - apply Hh.
Qed.

Lemma total_sleep n : total (sleep n).
Proof. intros s. now eexists _, _. Qed.
Lemma total_print msg : total (print msg).
Proof. intros s. now eexists _, _. Qed.
Lemma total_get_driver : total get_driver.
Proof. intros s. now eexists _, _. Qed.
Lemma total_get_results_df : total get_results_df.
Proof. intros s. now eexists _, _. Qed.
Lemma total_set_results_df df : total (set_results_df df).
Proof. intros s. now eexists _, _. Qed.

Lemma total_for_ {Y} (xs : list Y) (body : Y -> M unit) :
  (forall x, total (body x)) -> total (for_ xs body).
Proof.
  intros Hb. induction xs as [|x xs IH]; cbn [for_].
  - apply total_ret.
  - apply total_bind; [apply Hb|]. intros _. exact IH.
Qed.

Ltac total_step :=
  lazymatch goal with
  | |- total (bind _ _) => apply total_bind; [|intros ?]
  | |- total (try_except _ _) => apply total_try; intros ?
  | |- total (for_ _ _) => apply total_for_; intros ?
  | |- total (match ?x with _ => _ end) => destruct x
  | |- total (let _ := _ in _) => cbv zeta
  | |- total _ =>
      first [ apply total_ret | apply total_sleep | apply total_print
            | apply total_get_driver | apply total_get_results_df
            | apply total_set_results_df | assumption ]
  end.

Ltac total_tac := repeat total_step.

Lemma total_js_check_radio i : total (js_check_radio i).
Proof. unfold js_check_radio. total_tac. Qed.

Lemma total_js_check_checkbox i b : total (js_check_checkbox i b).
Proof. unfold js_check_checkbox. total_tac. Qed.

Lemma total_select_by_other_methods c i : total (select_by_other_methods c i).
Proof. unfold select_by_other_methods. total_tac. Qed.

Lemma total_select_screen_condition c : total (select_screen_condition c).
Proof.
  pose proof total_js_check_radio. pose proof total_select_by_other_methods.
  unfold select_screen_condition. total_tac; auto.
Qed.

Lemma total_select_body_condition : total select_body_condition.
Proof. unfold select_body_condition. total_tac. Qed.

Lemma total_set_issues : total set_issues.
Proof. unfold set_issues. total_tac. Qed.

Lemma total_extract_price : total extract_price.
Proof. unfold extract_price. total_tac. Qed.

Lemma total_submit_form_and_get_price : total submit_form_and_get_price.
Proof. unfold submit_form_and_get_price. total_tac. Qed.

Lemma total_append_result r : total (append_result r).
Proof. unfold append_result. total_tac. Qed.

Lemma total_record_quote d b m c : total (record_quote d b m c).
Proof.
  pose proof total_submit_form_and_get_price. pose proof total_append_result.
  unfold record_quote. total_tac; auto.
Qed.

Lemma total_save_progress c : total (save_progress c).
Proof. unfold save_progress. total_tac. Qed.

Lemma total_save_results : total save_results.
Proof. unfold save_results. total_tac. Qed.

Lemma total_close_browser : total close_browser.
Proof. unfold close_browser. total_tac. Qed.

Lemma total_main_loop d : total (main_loop d).
Proof. unfold main_loop. total_tac. Qed.

Lemma total_finish_run : total finish_run.
Proof.
  pose proof total_save_results. pose proof total_close_browser.
  unfold finish_run. total_tac; auto.
Qed.

(** ** Computations that return, with a property of the value *)

Lemma always_ret {A} (Q : A -> Prop) a : Q a -> always Q (ret a).
Proof. intros H s. now eexists _, _. Qed.

Lemma always_total {A} (m : M A) : total m -> always (fun _ => True) m.
Proof. intros H s. destruct (H s) as (a & s' & E). eauto. Qed.

Lemma always_bind {A B} (P : A -> Prop) (Q : B -> Prop) m (k : A -> M B) :
  always P m -> (forall a, P a -> always Q (k a)) -> always Q (bind m k).
Proof.
  intros Hm Hk s. destruct (Hm s) as (a & s1 & E & Ha).
  rewrite (bind_ok _ _ _ _ _ E). now apply Hk.
Qed.

Lemma always_try {A} (Q : A -> Prop) m (h : PyExn -> M A) :
  always Q m -> always Q (try_except m h).
Proof.
  intros Hm s. destruct (Hm s) as (a & s1 & E & Ha).
  rewrite (try_ok _ _ _ _ _ E). eauto.
Qed.

Lemma select_body_condition_true : always (eq true) select_body_condition.
Proof.
  unfold select_body_condition. apply always_try.
  eapply always_bind; [apply always_total, total_js_check_radio|].
  intros v _. eapply always_bind; [apply always_total, total_print|].
  intros _ _. now apply always_ret.
Qed.

Lemma set_issues_true : always (eq true) set_issues.
Proof.
  unfold set_issues. apply always_try.
  eapply always_bind.
  { apply always_total, total_for_. intros i.
    apply total_bind; [apply total_js_check_checkbox|]. intros _. apply total_ret. }
  intros _ _. eapply always_bind; [apply always_total, total_js_check_checkbox|].
  intros v _. eapply always_bind; [apply always_total, total_print|].
  intros _ _. now apply always_ret.
Qed.

(** Once the screen condition is selected, [fill_form] returns [True]
    whatever the two later steps found. *)
Lemma finish_form_true : always (eq true) finish_form.
Proof.
  unfold finish_form.
  eapply always_bind; [apply always_total, total_sleep|]. intros _ _.
  eapply always_bind; [apply select_body_condition_true|]. intros ? <-. cbn [negb].
  eapply always_bind; [apply always_total, total_sleep|]. intros _ _.
  eapply always_bind; [apply set_issues_true|]. intros ? <-. cbn [negb].
  eapply always_bind; [apply always_total, total_sleep|]. intros _ _.
  now apply always_ret.
Qed.

Lemma total_fill_form c : total (fill_form c).
Proof.
  intros s. unfold fill_form. run.
  match goal with |- context [bind (select_screen_condition c) _ ?s0] =>
    destruct (total_select_screen_condition c s0) as (sel & s1 & E) end.
  rewrite (bind_ok _ _ _ _ _ E). destruct sel; cbn [negb].
  - destruct (finish_form_true s1) as (a & s2 & E2 & _). eauto.
  - run. now eexists _, _.
Qed.

(** ** The table of screen conditions *)

Lemma condition_id_map_None c :
  c <> "Flawless" -> c <> "Good" -> c <> "Damaged" ->
  condition_id_map !! c = None.
Proof.
  intros H1 H2 H3. unfold condition_id_map.
  rewrite !lookup_insert_ne by congruence. now rewrite lookup_singleton_ne.
Qed.

Lemma condition_id_map_Some c i :
  condition_id_map !! c = Some i ->
  c = "Flawless" /\ i = "CPTS01" \/ c = "Good" /\ i = "CPTS02"
  \/ c = "Damaged" /\ i = "CPTS04".
Proof.
  unfold condition_id_map. intros H.
  destruct (decide (c = "Flawless")) as [->|N1].
  { rewrite lookup_insert_eq in H. left. split; congruence. }
  rewrite lookup_insert_ne in H by congruence.
  destruct (decide (c = "Good")) as [->|N2].
  { rewrite lookup_insert_eq in H. right; left. split; congruence. }
  rewrite lookup_insert_ne in H by congruence.
  destruct (decide (c = "Damaged")) as [->|N3].
  { rewrite lookup_singleton_eq in H. right; right. split; congruence. }
  rewrite lookup_singleton_ne in H by congruence. discriminate.
Qed.

Lemma select_screen_condition_unknown c s :
  condition_id_map !! c = None ->
  select_screen_condition c s =
    (Ok false,
     mkSt (env s) (driver s) (wait s) (short_wait s) (results_df s) (trace s)
          ((stdout s ++ ["[INFO] Selecting screen condition: " +:+ c])
             ++ ["[ERROR] Unknown condition: " +:+ c])).
Proof. intros H. unfold select_screen_condition. rewrite H. reflexivity. Qed.

(** The first call of [select_screen_condition] on a condition of the
    table runs the script of [js_check_radio] on the code of the table. *)
Lemma select_screen_condition_first_call c i s :
  condition_id_map !! c = Some i ->
  exists rest,
    trace (select_screen_condition c s).2 =
      trace s ++ ExecuteScript (driver s) (check_radio_script i) [] :: rest.
Proof.
  intros H.
  assert (Ht : PyStr.truthy i = true).
  { apply condition_id_map_Some in H as [[_ ->]|[[_ ->]|[_ ->]]]; reflexivity. }
  unfold select_screen_condition. rewrite H, Ht. cbn [negb]. run.
  match goal with |- context [bind (js_check_radio i) ?k ?s0] =>
    set (K := k); set (s0' := s0) end.
  assert (exists r s1, js_check_radio i s0' = (Ok r, s1)
            /\ trace s1 = trace s ++ [ExecuteScript (driver s) (check_radio_script i) []])
    as (r & s1 & E & Ht1).
  { unfold js_check_radio, try_except. rewrite bind_get_driver. unfold call.
    subst s0'. cbn [env driver wait short_wait results_df trace stdout].
    destruct (perform _ _) as [[v|e] env1].
    - eexists _, _. split; reflexivity.
    - run. eexists _, _. split; reflexivity. }
  rewrite (bind_ok _ _ _ _ _ E).
  assert (Hk : keeps trace prefix (K r)).
  { subst K. cbv beta. destruct (py_truthy r).
    - apply keeps_bind; try apply _.
      + apply keeps_print, steps_keep_trace.
      + intros _. apply keeps_ret; apply _.
    - apply keeps_select_by_other_methods; try apply _. apply steps_keep_trace. }
  destruct (Hk s1) as [t' Ht']. rewrite Ht', Ht1.
  exists t'. now rewrite <- app_assoc.
Qed.

(** ** The price pattern *)



Lemma parse_price_value v price :
  parse_price v = Ok price ->
  price = "" \/
  exists text, PyStr.contains "RM" text = true /\ Re.search_price text = Some price.
Proof.
  unfold parse_price. destruct (py_truthy v); [|intros [= <-]; now left].
  destruct v as [| b | z | text]; cbn [py_contains]; try discriminate.
  destruct (PyStr.contains "RM" text) eqn:Hc; [|intros [= <-]; now left].
  destruct (Re.search_price text) as [g|] eqn:Hs; intros [= <-].
  - right. now exists text.
  - now left.
Qed.

(** ** Results of the stages that touch no row *)

Lemma df_open_condition_form b m s :
  results_df (open_condition_form b m s).2 = results_df s.
Proof.
  symmetry. apply (keeps_open_condition_form results_df eq (steps_keep_df eq)).
Qed.

Lemma df_fill_form c s : results_df (fill_form c s).2 = results_df s.
Proof. symmetry. apply (keeps_fill_form results_df eq (steps_keep_df eq)). Qed.

Lemma df_submit_form_and_get_price s :
  results_df (submit_form_and_get_price s).2 = results_df s.
Proof.
  symmetry.
  apply (keeps_submit_form_and_get_price results_df eq (steps_keep_df eq)).
Qed.

Lemma df_save_progress c s : results_df (save_progress c s).2 = results_df s.
Proof. symmetry. apply (keeps_save_progress results_df eq (steps_keep_df eq)). Qed.

Lemma df_recover m c e s : results_df (recover m c e s).2 = results_df s.
Proof. symmetry. apply (keeps_recover results_df eq (steps_keep_df eq)). Qed.

Lemma df_navigate c s : results_df (navigate c s).2 = results_df s.
Proof. symmetry. apply (keeps_navigate results_df eq (steps_keep_df eq)). Qed.

(** [record_quote] returns and has appended one entry. *)
Lemma record_quote_appends d b m c s :
  exists price s',
    record_quote d b m c s = (Ok tt, s') /\
    results_df s' = results_df s ++ [make_result d b m c price].
Proof.
  destruct (total_submit_form_and_get_price s) as (price & s1 & E).
  pose proof (df_submit_form_and_get_price s) as Hdf. rewrite E in Hdf.
  cbn [snd] in Hdf.
  exists price. eexists. unfold record_quote. rewrite (bind_ok _ _ _ _ _ E).
  cbv zeta. unfold append_result. run. unfold print.
  split; [reflexivity|]. cbn [results_df]. now rewrite Hdf.
Qed.

(** What a work unit does to the table, by the outcome of its stages. *)
Lemma work_unit_outcome d b m c s :
  let r := work_unit d b m c s in
  match open_condition_form b m s with
  | (Raise e, _) => r.1 = Raise e /\ results_df r.2 = results_df s
  | (Ok _, s1) =>
      match fill_form c s1 with
      | (Raise e, _) => r.1 = Raise e /\ results_df r.2 = results_df s
      | (Ok false, _) => r.1 = Ok tt /\ results_df r.2 = results_df s
      | (Ok true, _) =>
          r.1 = Ok tt /\
          exists price, results_df r.2 = results_df s ++ [make_result d b m c price]
      end
  end.
Proof.
  cbv zeta. unfold work_unit.
  pose proof (df_open_condition_form b m s) as H1.
  destruct (open_condition_form b m s) as [[[]|e] s1] eqn:E1; cbn [snd] in H1.
  2:{ rewrite (bind_raise _ _ _ _ _ E1). now split. }
  rewrite (bind_ok _ _ _ _ _ E1).
  pose proof (df_fill_form c s1) as H2.
  destruct (fill_form c s1) as [[filled|e] s2] eqn:E2; cbn [snd] in H2.
  2:{ rewrite (bind_raise _ _ _ _ _ E2). split; [reflexivity|]. cbn. congruence. }
  rewrite (bind_ok _ _ _ _ _ E2).
  destruct filled.
  - destruct (record_quote_appends d b m c s2) as (price & s3 & E3 & H3).
    rewrite (bind_ok _ _ _ _ _ E3).
    destruct (total_save_progress c s3) as ([] & s4 & E4).
    pose proof (df_save_progress c s3) as H4. rewrite E4 in *. cbn [fst snd] in *.
    split; [reflexivity|]. exists price. congruence.
  - run. destruct (total_save_progress c s2) as ([] & s4 & E4).
    pose proof (df_save_progress c s2) as H4. rewrite E4 in *. cbn [fst snd] in *.
    split; [reflexivity|]. congruence.
Qed.

Lemma work_unit_df d b m c s :
  results_df (work_unit d b m c s).2 = results_df s \/
  exists price,
    results_df (work_unit d b m c s).2 = results_df s ++ [make_result d b m c price].
Proof.
  pose proof (work_unit_outcome d b m c s) as H. cbv zeta in H.
  destruct (open_condition_form b m s) as [[[]|e] s1]; [|left; apply H].
  destruct (fill_form c s1) as [[[|]|e] s2]; [right | left | left]; apply H.
Qed.

Lemma work_unit_raise_df d b m c s e :
  (work_unit d b m c s).1 = Raise e ->
  results_df (work_unit d b m c s).2 = results_df s.
Proof.
  pose proof (work_unit_outcome d b m c s) as H. cbv zeta in H.
  destruct (open_condition_form b m s) as [[[]|e1] s1]; [|intros _; apply H].
  destruct (fill_form c s1) as [[[|]|e2] s2]; destruct H as [H1 H2];
    rewrite H1; intros; (discriminate || assumption).
Qed.

Lemma process_condition_df d b m c s :
  results_df (process_condition d b m c s).2 = results_df s \/
  exists price,
    results_df (process_condition d b m c s).2
      = results_df s ++ [make_result d b m c price].
Proof.
  unfold process_condition. pose proof (df_navigate c s) as Hn.
  destruct (navigate c s) as [[c0|e] s0] eqn:En; cbn [snd] in Hn.
  2:{ rewrite (bind_raise _ _ _ _ _ En). now left. }
  rewrite (bind_ok _ _ _ _ _ En). rewrite <- Hn.
  destruct c0; try (now left).
  unfold try_except, bind.
  pose proof (work_unit_df d b m c s0) as Hw.
  pose proof (work_unit_raise_df d b m c s0) as Hr.
  destruct (work_unit d b m c s0) as [[[]|e] s1]; cbn [fst snd] in *.
  - exact Hw.
  - left. rewrite df_recover. now apply (Hr e).
Qed.

Lemma finish_run_result s :
  exists s', finish_run s = (Ok (negb (df_empty (results_df s'))), s').
Proof.
  unfold finish_run.
  destruct (total_save_results s) as ([] & s1 & E1). rewrite (bind_ok _ _ _ _ _ E1).
  destruct (total_close_browser s1) as ([] & s2 & E2).
  rewrite (bind_ok _ _ _ _ _ E2). run. now exists s2.
Qed.

Lemma make_result_device_type_ok d b m c p : device_type_ok (make_result d b m c p).
Proof.
  exists m. unfold make_result, dict_update.
  assert (Hm : forall (u : gmap string string) g,
            u !! "Model" = Some m ->
            match g with
            | Some g => <["Capacity" := PyStr.remove_spaces g]> u
            | None => u
            end !! "Model" = Some m).
  { intros u [g|] Hu; [|exact Hu]. now rewrite lookup_insert_ne. }
  assert (Ht : forall (u : gmap string string) g t,
            u !! "Device Type" = Some t ->
            match g with
            | Some g => <["Capacity" := PyStr.remove_spaces g]> u
            | None => u
            end !! "Device Type" = Some t).
  { intros u [g|] t Hu; [|exact Hu]. now rewrite lookup_insert_ne. }
  split.
  - apply Hm. apply lookup_union_Some_l.
    rewrite lookup_insert_ne by discriminate.
    rewrite lookup_insert_ne by discriminate.
    apply lookup_insert_eq.
  - unfold device_type.
    destruct (PyStr.contains "iPhone" m) eqn:Hi; cbn [orb].
    + left. split; [now left|]. apply Ht, lookup_union_Some_l, lookup_insert_eq.
    + destruct (PyStr.contains "Galaxy" m) eqn:Hg.
      * left. split; [now right|]. apply Ht, lookup_union_Some_l, lookup_insert_eq.
      * right. split; [now split|]. apply Ht, lookup_union_Some_l, lookup_insert_eq.
Qed.

Lemma make_result_lookup (d : gmap string string) b m c p k :
  k <> "Capacity" ->
  make_result d b m c p !! k =
    (dict_update d
       {[ "Device Type" := device_type m; "Brand" := b; "Model" := m;
          "Condition" := c; "Currency" := "MYR"; "Value" := p ]}) !! k.
Proof.
  intros Hk. unfold make_result. cbv zeta.
  destruct (Re.search_capacity m); [|reflexivity].
  now rewrite lookup_insert_ne.
Qed.

Lemma make_result_unit_device_type_ok d b m c p :
  unit_device_type_ok m (make_result d b m c p).
Proof.
  unfold unit_device_type_ok. rewrite !make_result_lookup by discriminate.
  unfold dict_update. split.
  - apply lookup_union_Some_l.
    rewrite !lookup_insert_ne by discriminate. apply lookup_insert_eq.
  - unfold device_type.
    destruct (PyStr.contains "iPhone" m) eqn:Hi; cbn [orb].
    + left. split; [now left|]. apply lookup_union_Some_l, lookup_insert_eq.
    + destruct (PyStr.contains "Galaxy" m) eqn:Hg.
      * left. split; [now right|]. apply lookup_union_Some_l, lookup_insert_eq.
      * right. split; [now split|]. apply lookup_union_Some_l, lookup_insert_eq.
Qed.

Lemma parse_price_of_text v :
  match parse_price v with
  | Ok price => price = price_of_text v
  | Raise _ => price_of_text v = ""
  end.
Proof.
  unfold parse_price, price_of_text.
  destruct v as [| [|] | z | t]; cbn [py_truthy py_contains]; try reflexivity.
  - now destruct (negb (z =? 0)%Z).
  - destruct t as [|a t]; [reflexivity|]. cbn [PyStr.truthy].
    destruct (PyStr.contains "RM" (String a t)); [|reflexivity].
    now destruct (Re.search_price (String a t)).
Qed.

(** ** The brand selection when nothing matches *)



(** ** Loops *)

Lemma passes_keeps {X Y} (f : St Env -> X) (R : relation X) `{!PreOrder R}
    (body : Y -> M Flow) xs s s' :
  (forall x, keeps f R (body x)) -> passes body xs s s' -> R (f s) (f s').
Proof.
  intros Hb. induction 1 as [|x xs s s1 s2 c Hx _ _ IH]; [reflexivity|].
  etransitivity; [|exact IH]. specialize (Hb x s). now rewrite Hx in Hb.
Qed.

Lemma process_condition_keeps_prefix d b m c :
  keeps results_df prefix (process_condition d b m c).
Proof.
  apply keeps_process_condition; try apply _; [apply steps_keep_df, _|].
  intros. apply append_keeps_prefix.
Qed.

(* ===================================================================== *)
(** * The properties *)
(* ===================================================================== *)


(** C4. The table of screen conditions sends ["Flawless"] to CPTS01,
    ["Good"] to CPTS02 and ["Damaged"] to CPTS04, and for a condition of
    the table the first call of the selection runs the radio script on
    that code. For any other condition string the selection, and with it
    the whole form stage, returns [False] without any call to the browser:
    the trace is unchanged, and all the environment has seen is the one
    second that [fill_form] sleeps first. *)
Theorem screen_condition_mapping :
  condition_id_map !! "Flawless" = Some "CPTS01" /\
  condition_id_map !! "Good" = Some "CPTS02" /\
  condition_id_map !! "Damaged" = Some "CPTS04" /\
  (forall condition code s,
     condition_id_map !! condition = Some code ->
     exists rest,
       trace (select_screen_condition condition s).2 =
         trace s ++ ExecuteScript (driver s) (check_radio_script code) [] :: rest) /\
  (forall condition s,
     condition <> "Flawless" -> condition <> "Good" -> condition <> "Damaged" ->
     (select_screen_condition condition s).1 = Ok false /\
     trace (select_screen_condition condition s).2 = trace s /\
     env (select_screen_condition condition s).2 = env s /\
     (fill_form condition s).1 = Ok false /\
     trace (fill_form condition s).2 = trace s /\
     env (fill_form condition s).2 = tick 1 (env s)).
Proof.
  split; [reflexivity|]. split; [reflexivity|]. split; [reflexivity|]. split.
  - intros c i s H. now apply select_screen_condition_first_call.
  - intros c s H1 H2 H3.
    pose proof (condition_id_map_None c H1 H2 H3) as Hn.
    rewrite (select_screen_condition_unknown c s Hn).
    repeat (split; [reflexivity|]).
    unfold fill_form. run.
    erewrite bind_ok by (apply select_screen_condition_unknown, Hn).
    cbn [negb]. run. repeat split; reflexivity.
Qed.

(** C6 (as amended). Whenever the screen-condition step of the form stage
    reports success, the stage goes on with [finish_form], a computation in
    which the requested condition does not occur: its first call to the
    browser runs the radio script on CPBP01, the flawless-body radio,
    whichever condition was requested. When the screen-condition step
    reports failure, the stage returns [False] with no further call. *)
Theorem body_condition_is_constant condition s s1 selected :
  select_screen_condition condition
    (sleep 1 (print ("[INFO] Filling form with screen condition: " +:+ condition) s).2).2
    = (Ok selected, s1) ->
  if selected then
    fill_form condition s = finish_form s1 /\
    exists rest,
      trace (fill_form condition s).2 =
        trace s1 ++ ExecuteScript (driver s1) (check_radio_script "CPBP01") [] :: rest
  else
    (fill_form condition s).1 = Ok false /\
    trace (fill_form condition s).2 = trace s1.
Proof.
  intros H. cbn [print sleep snd] in H.
  destruct selected.
  2:{ unfold fill_form. run. rewrite (bind_ok _ _ _ _ _ H). cbn [negb]. run.
      split; reflexivity. }
  assert (E : fill_form condition s = finish_form s1).
  { unfold fill_form. run. now rewrite (bind_ok _ _ _ _ _ H). }
  split; [exact E|]. rewrite E.
  unfold finish_form. run. unfold select_body_condition at 1.
  match goal with |- context [bind ?m ?k ?s0] => set (K := k); set (s0' := s0) end.
  assert (exists s2, select_body_condition s0' = (Ok true, s2)
            /\ exists t, trace s2 =
                 (trace s1 ++ [ExecuteScript (driver s1) (check_radio_script "CPBP01") []]) ++ t)
    as (s2 & E2 & t & Ht).
  { destruct (select_body_condition_true s0') as (b & s2 & E2 & <-).
    exists s2. split; [exact E2|].
    revert E2. unfold select_body_condition, js_check_radio.
    unfold try_except at 1. unfold bind at 1. unfold try_except at 1.
    rewrite bind_get_driver. unfold call.
    subst s0'. cbn [env driver wait short_wait results_df trace stdout].
    destruct (perform _ _) as [[v|e] env1].
    - run. intros [= <-]. exists []. cbn. now rewrite app_nil_r.
    - run. intros [= <-]. exists []. cbn. now rewrite app_nil_r. }
  fold select_body_condition. rewrite (bind_ok _ _ _ _ _ E2).
  assert (Hk : keeps trace prefix (K true)).
  { subst K. cbv beta. cbn [negb].
    apply keeps_bind; try apply _; [apply keeps_sleep, steps_keep_trace|].
    intros _. apply keeps_bind; try apply _;
      [apply keeps_set_issues; try apply _; apply steps_keep_trace|].
    intros [|]; cbn [negb].
    - apply keeps_bind; try apply _; [apply keeps_sleep, steps_keep_trace|].
      intros _. apply keeps_ret; apply _.
    - apply keeps_ret; apply _. }
  destruct (Hk s2) as [t' Ht']. rewrite Ht', Ht.
  exists (t ++ t'). now rewrite <- !app_assoc.
Qed.

(** C5. [extract_price] never raises: in every state it returns a string,
    and the string is fixed by the text the page gave. That text is the
    stripped text of the first selector whose wait and text both answer
    or, when there is none or it is empty, the answer of the scan of the
    document. The result is group 1 of the price pattern when the text is
    a string that carries the marker [RM] and the pattern matches in it;
    on every other path (no text, a text that is no string, no marker, a
    marker with no number after it, a scan that raises) it is the empty
    string. In particular, when no selector ever matches (every wait
    raises) and the scan of the document finds no currency text (the
    script returns the empty string), the result is the empty string. *)
Theorem extract_price_never_raises :
  (forall s, exists price s',
     extract_price s = (Ok price, s') /\
     match find_price_text price_selectors (sleep 1 s).2 with
     | (Ok found, s1) =>
         if py_truthy found then price = price_of_text found
         else
           match perform (ExecuteScript (driver s1) price_scan_script []) (env s1) with
           | (Ok scanned, _) => price = price_of_text scanned
           | (Raise _, _) => price = ""
           end
     | (Raise _, _) => price = ""
     end) /\
  ((forall w c env, exists e env', perform (Until w c) env = (Raise e, env')) ->
   (forall d env v env',
      perform (ExecuteScript d price_scan_script []) env = (Ok v, env') ->
      v = PyStr "") ->
   forall s, (extract_price s).1 = Ok "").
Proof.
  split.
  - intros s. unfold extract_price, try_except. run. cbn [sleep snd].
    match goal with |- context [bind (find_price_text price_selectors) _ ?s0] =>
      destruct (find_price_text price_selectors s0) as [[found|e] s1] eqn:E end.
    2:{ rewrite (bind_raise _ _ _ _ _ E). eexists _, _. split; reflexivity. }
    rewrite (bind_ok _ _ _ _ _ E).
    destruct (py_truthy found) eqn:Ht; cbn [negb].
    + run. unfold lift. pose proof (parse_price_of_text found) as Hp.
      destruct (parse_price found) as [price|e];
        eexists _, _; (split; [reflexivity|]); congruence.
    + rewrite bind_assoc, bind_get_driver. unfold bind, call.
      destruct (perform _ (env s1)) as [[v|e] env1].
      * unfold lift. pose proof (parse_price_of_text v) as Hp.
        destruct (parse_price v) as [price|e];
          eexists _, _; (split; [reflexivity|]); congruence.
      * eexists _, _. split; reflexivity.
  - intros HU HS s.
    assert (Hfind : forall l s0, exists s1, find_price_text l s0 = (Ok PyNone, s1)).
    { induction l as [|sel l IH]; intros s0; cbn [find_price_text].
      - now eexists.
      - unfold bind at 1. unfold try_except at 1.
        rewrite bind_get_short_wait, bind_call.
        destruct (HU (short_wait s0)
                    (visibility_of_element_located By_CSS_SELECTOR sel) (env s0))
          as (e & env' & ->).
        unfold ret at 1. apply IH. }
    unfold extract_price, try_except. run.
    match goal with |- context [bind (find_price_text _) _ ?s0] =>
      destruct (Hfind price_selectors s0) as (s1 & E1) end.
    rewrite (bind_ok _ _ _ _ _ E1). cbn [py_truthy negb]. run.
    unfold bind at 1. rewrite bind_get_driver. unfold call.
    destruct (perform _ (env s1)) as [[v|e] env'] eqn:Ep.
    + apply HS in Ep as ->. reflexivity.
    + reflexivity.
Qed.

(** C1 (as amended). A pass of the main loop over a work unit (brand,
    model, condition) appends at most one entry to the results, and that
    entry is the one of this work unit. It appends exactly one, whose Value
    may be empty, when the condition form is reached and [fill_form] reports
    success; it appends none when [fill_form] reports failure, and none
    when the selection of brand and model raises. *)
Theorem at_most_one_record_per_work_unit defaults brand model condition :
  (forall s,
     let s' := (process_condition defaults brand model condition s).2 in
     results_df s' = results_df s \/
     exists price,
       results_df s' =
         results_df s ++ [make_result defaults brand model condition price]) /\
  (forall s s1 s2 filled,
     open_condition_form brand model s = (Ok tt, s1) ->
     fill_form condition s1 = (Ok filled, s2) ->
     let r := work_unit defaults brand model condition s in
     r.1 = Ok tt /\
     if filled
     then exists price,
            results_df r.2 =
              results_df s ++ [make_result defaults brand model condition price]
     else results_df r.2 = results_df s) /\
  (forall s e s1,
     open_condition_form brand model s = (Raise e, s1) ->
     let r := work_unit defaults brand model condition s in
     r.1 = Raise e /\ results_df r.2 = results_df s).
Proof.
  split; [|split].
  - intros s. cbv zeta. apply process_condition_df.
  - intros s s1 s2 filled Ho Hf. cbv zeta.
    pose proof (work_unit_outcome defaults brand model condition s) as H.
    cbv zeta in H. rewrite Ho, Hf in H. destruct filled; exact H.
  - intros s e s1 Ho. cbv zeta.
    pose proof (work_unit_outcome defaults brand model condition s) as H.
    cbv zeta in H. now rewrite Ho in H.
Qed.


(** C10. The entry recorded for a work unit carries the model of that
    work unit, and its Device Type is "Smartphone" exactly when the name
    of that model contains "iPhone" or "Galaxy", and "Tablet" for every
    other name: a pass of the loop over the conditions leaves the table as
    it was or appends one such entry. So in the table of a run that
    returns, every entry has the Device Type that goes with its Model. *)
Theorem device_type_of_every_record :
  (forall defaults brand model condition s,
     results_df (process_condition defaults brand model condition s).2
       = results_df s \/
     exists row,
       results_df (process_condition defaults brand model condition s).2
         = results_df s ++ [row] /\
       unit_device_type_ok model row) /\
  (forall s b s',
     scrape_trade_in_prices s = (Ok b, s') ->
     Forall device_type_ok (results_df s')).
Proof.
  split.
  - intros defaults brand model condition s.
    destruct (process_condition_df defaults brand model condition s)
      as [H|[price H]]; [now left|].
    right. eexists. split; [exact H|]. apply make_result_unit_device_type_ok.
  - intros s b s'. unfold scrape_trade_in_prices. intros H.
    apply bind_Ok_inv in H as (d & s1 & _ & H). revert H. run. cbv zeta.
    match goal with |- bind (main_loop ?defs) ?k ?s2 = _ -> _ =>
      set (D := defs); set (s0 := s2) end.
    intros H.
    assert (Hk : keeps results_df (carries device_type_ok)
                   (bind (main_loop D) (fun _ => finish_run))).
    { apply keeps_bind; try apply _.
      - apply keeps_main_loop; try apply _; [apply steps_keep_df, _|].
        intros. apply append_carries, make_result_device_type_ok.
      - intros _. apply keeps_finish_run; try apply _. apply steps_keep_df, _. }
    specialize (Hk s0). rewrite H in Hk. apply Hk. constructor.
Qed.


(** C8 (as amended). When an exception escapes the selection, form and
    quote part of a work unit (the try block of lines 455-537) and the
    liveness probe [driver.current_url] raises too, then, provided the old
    session can be quit and a new one set up: the session is quit once and
    created once, the new session and wait helpers bound to it replace the
    old ones, the table of results is the one the work unit started with,
    with every earlier entry in place, the loop over the conditions of the model
    ends without a call for the remaining conditions, and the loop over
    the models goes on with the next model. *)
Theorem recovery_after_session_death defaults brand model done condition rest
    models sM s0 s s1 e e' env2 env3 d' env4 env5 v env6 :
  screen_conditions = done ++ condition :: rest ->
  passes (process_condition defaults brand model) done
         (print (PyStr.nl +:+ "[INFO] Processing model: " +:+ model) sM).2 s0 ->
  navigate condition s0 = (Ok Fallthrough, s) ->
  work_unit defaults brand model condition s = (Raise e, s1) ->
  perform (CurrentUrl (driver s1)) (env s1) = (Raise e', env2) ->
  perform (Quit (driver s1)) env2 = (Ok tt, env3) ->
  perform (NewChrome (chrome_options headless)) env3 = (Ok d', env4) ->
  perform (SetPageLoadTimeout d' 60) env4 = (Ok tt, env5) ->
  perform (ExecuteScript d' anti_detection_script []) env5 = (Ok v, env6) ->
  let s' :=
    mkSt env6 d' (mkWait d' 15 500) (mkWait d' 5 500) (results_df s1)
         (trace s1 ++ [CurrentUrl (driver s1); Quit (driver s1);
                       NewChrome (chrome_options headless);
                       SetPageLoadTimeout d' 60;
                       ExecuteScript d' anti_detection_script []])
         (stdout s1 ++
            ["[ERROR] Failed to process " +:+ model +:+ " with " +:+ condition
               +:+ ": " +:+ exn_text e;
             "[WARNING] Browser appears to have crashed, recreating..."]) in
  process_condition defaults brand model condition s0 = (Ok Break, s') /\
  length (filter (fun o => is_quit o = true)
                 (drop (length (trace s1)) (trace s'))) = 1 /\
  length (filter (fun o => is_new_chrome o = true)
                 (drop (length (trace s1)) (trace s'))) = 1 /\
  results_df s' = results_df s0 /\
  results_df sM `prefix_of` results_df s' /\
  process_model defaults brand model sM = (Ok Fallthrough, s') /\
  for_each (model :: models) (process_model defaults brand) sM
    = for_each models (process_model defaults brand) s'.
Proof.
  intros Hsplit Hdone Hnav Hwork Hprobe Hquit Hnew Htimeout Hscript s'.
  assert (Hpc : process_condition defaults brand model condition s0 = (Ok Break, s')).
  { unfold process_condition. rewrite (bind_ok _ _ _ _ _ Hnav).
    rewrite (try_raise _ _ _ _ _ (bind_raise _ _ _ _ _ Hwork)).
    unfold recover. run. unfold bind at 1. unfold try_except at 1.
    rewrite bind_get_driver, bind_call.
    cbn [env driver wait short_wait results_df trace stdout]. rewrite Hprobe.
    run. unfold recreate_browser, setup_driver.
    rewrite !bind_assoc. run. rewrite !bind_assoc, bind_call.
    cbn [env driver wait short_wait results_df trace stdout].
    rewrite Hquit. rewrite !bind_assoc, bind_call.
    cbn [env driver wait short_wait results_df trace stdout]. rewrite Hnew.
    rewrite !bind_assoc, bind_call.
    cbn [env driver wait short_wait results_df trace stdout]. rewrite Htimeout.
    rewrite !bind_assoc, bind_call.
    cbn [env driver wait short_wait results_df trace stdout]. rewrite Hscript.
    rewrite ?bind_assoc. run. unfold ret. subst s'.
    rewrite <- !app_assoc. reflexivity. }
  assert (Hdf : results_df s' = results_df s0).
  { subst s'. cbn [results_df].
    pose proof (work_unit_raise_df defaults brand model condition s e) as Hr.
    rewrite Hwork in Hr. cbn [fst snd] in Hr. rewrite (Hr eq_refl).
    pose proof (df_navigate condition s0) as Hn. now rewrite Hnav in Hn. }
  assert (Hpm : process_model defaults brand model sM = (Ok Fallthrough, s')).
  { unfold process_model. run. rewrite Hsplit. unfold bind at 1.
    pose proof Hdone as Hdone'. unfold print in Hdone'. cbn [snd] in Hdone'.
    rewrite (for_each_app_passes _ _ _ _ _ Hdone'). cbn [for_each].
    rewrite (bind_ok _ _ _ _ _ Hpc). reflexivity. }
  split; [exact Hpc|].
  split; [subst s'; cbn [trace]; now rewrite drop_app_length|].
  split; [subst s'; cbn [trace]; now rewrite drop_app_length|].
  split; [exact Hdf|]. split.
  - rewrite Hdf.
    apply (passes_keeps results_df prefix _ _ _ _
             (process_condition_keeps_prefix defaults brand model) Hdone).
  - split; [exact Hpm|]. cbn [for_each]. now rewrite (bind_ok _ _ _ _ _ Hpm).
Qed.

(* ===================================================================== *)
(** * Further properties of the script *)
(* ===================================================================== *)

Lemma bind_try {A B} (m : M A) h (k : A -> M B) s :
  bind (try_except m h) k s =
    match m s with
    | (Ok a, s') => k a s'
    | (Raise e, s') => bind (h e) k s'
    end.
Proof. unfold bind, try_except. now destruct (m s) as [[a|e] s']. Qed.

Lemma js_check_radio_exact i s :
  js_check_radio i s =
    match perform (ExecuteScript (driver s) (check_radio_script i) []) (env s) with
    | (Ok v, env') =>
        (Ok v, mkSt env' (driver s) (wait s) (short_wait s) (results_df s)
                 (trace s ++ [ExecuteScript (driver s) (check_radio_script i) []])
                 (stdout s))
    | (Raise e, env') =>
        (Ok (PyBool false),
         mkSt env' (driver s) (wait s) (short_wait s) (results_df s)
              (trace s ++ [ExecuteScript (driver s) (check_radio_script i) []])
              (stdout s ++ ["[ERROR] Failed to check radio " +:+ i +:+ ": "
                            +:+ exn_text e]))
    end.
Proof.
  unfold js_check_radio, try_except. rewrite bind_get_driver. unfold call.
  destruct (perform _ _) as [[v|e] env']; reflexivity.
Qed.

Lemma js_check_checkbox_exact i b s :
  js_check_checkbox i b s =
    match perform (ExecuteScript (driver s) (check_checkbox_script i b) []) (env s) with
    | (Ok v, env') =>
        (Ok v, mkSt env' (driver s) (wait s) (short_wait s) (results_df s)
                 (trace s ++ [ExecuteScript (driver s) (check_checkbox_script i b) []])
                 (stdout s))
    | (Raise e, env') =>
        (Ok (PyBool false),
         mkSt env' (driver s) (wait s) (short_wait s) (results_df s)
              (trace s ++ [ExecuteScript (driver s) (check_checkbox_script i b) []])
              (stdout s ++ ["[ERROR] Failed to check checkbox " +:+ i +:+ ": "
                            +:+ exn_text e]))
    end.
Proof.
  unfold js_check_checkbox, try_except. rewrite bind_get_driver. unfold call.
  destruct (perform _ _) as [[v|e] env']; reflexivity.
Qed.

(** X1. [js_check_radio] and [js_check_checkbox] never raise. Each runs
    exactly one script, on the current session and with the id it was
    given; the value is what the script returned, and [False] when the
    driver raised. *)
Theorem js_checks_never_raise i check s :
  (exists v s',
     js_check_radio i s = (Ok v, s') /\
     trace s' = trace s ++ [ExecuteScript (driver s) (check_radio_script i) []] /\
     v = match (perform (ExecuteScript (driver s) (check_radio_script i) [])
                        (env s)).1 with
         | Ok v0 => v0
         | Raise _ => PyBool false
         end) /\
  (exists v s',
     js_check_checkbox i check s = (Ok v, s') /\
     trace s' =
       trace s ++ [ExecuteScript (driver s) (check_checkbox_script i check) []] /\
     v = match (perform (ExecuteScript (driver s) (check_checkbox_script i check) [])
                        (env s)).1 with
         | Ok v0 => v0
         | Raise _ => PyBool false
         end).
Proof.
  split.
  - rewrite js_check_radio_exact.
    destruct (perform _ _) as [[v|e] env']; eexists _, _; repeat split.
  - rewrite js_check_checkbox_exact.
    destruct (perform _ _) as [[v|e] env']; eexists _, _; repeat split.
Qed.

(** X2. When the direct script of [select_screen_condition] returns a true
    value, the function returns [True] after that single call: methods 2
    and 3 are not tried. *)
Theorem screen_condition_first_method_wins condition code s v env' :
  condition_id_map !! condition = Some code ->
  perform (ExecuteScript (driver s) (check_radio_script code) []) (env s)
    = (Ok v, env') ->
  py_truthy v = true ->
  exists s',
    select_screen_condition condition s = (Ok true, s') /\
    trace s' = trace s ++ [ExecuteScript (driver s) (check_radio_script code) []] /\
    env s' = env'.
Proof.
  intros H Hp Hv.
  assert (Ht : PyStr.truthy code = true).
  { apply condition_id_map_Some in H as [[_ ->]|[[_ ->]|[_ ->]]]; reflexivity. }
  unfold select_screen_condition. rewrite H, Ht. cbn [negb]. run.
  unfold bind at 1. rewrite js_check_radio_exact.
  cbn [env driver wait short_wait results_df trace stdout]. rewrite Hp, Hv. run.
  eexists. repeat split.
Qed.

(** Run the head of a computation through [try] blocks as well. *)
Ltac exec :=
  repeat progress
    (rewrite ?bind_assoc, ?bind_try; run; cbn [ret negb];
     cbn [env driver wait short_wait results_df trace stdout]).



(** X4. [fill_form] never raises, and what it returns is what the
    selection of the screen condition returned: the two later steps have
    no part in the result. *)
Theorem fill_form_result_is_screen_result condition s :
  exists selected s1 s',
    select_screen_condition condition
      (sleep 1 (print ("[INFO] Filling form with screen condition: " +:+ condition) s).2).2
      = (Ok selected, s1) /\
    fill_form condition s = (Ok selected, s').
Proof.
  cbn [print sleep snd]. unfold fill_form. run.
  match goal with |- context [bind (select_screen_condition condition) _ ?s0] =>
    destruct (total_select_screen_condition condition s0) as (sel & s1 & E) end.
  exists sel, s1. rewrite (bind_ok _ _ _ _ _ E). destruct sel; cbn [negb].
  - destruct (finish_form_true s1) as (b & s2 & E2 & <-). eauto.
  - run. eauto.
Qed.

Lemma uncheck_all l s :
  exists s',
    for_ l (fun issue_id => bind (js_check_checkbox issue_id false) (fun _ => ret tt)) s
      = (Ok tt, s') /\
    trace s' =
      trace s ++ map (fun i => ExecuteScript (driver s) (check_checkbox_script i false) []) l /\
    driver s' = driver s /\ results_df s' = results_df s.
Proof.
  revert s. induction l as [|i l IH]; intros s; cbn [for_ map].
  { eexists. split; [reflexivity|]. now rewrite app_nil_r. }
  rewrite bind_assoc. unfold bind at 1. rewrite js_check_checkbox_exact.
  destruct (perform _ (env s)) as [[v|e] env1]; exec;
    match goal with |- context [for_ l _ ?s1] =>
      destruct (IH s1) as (s' & -> & Ht & Hd & Hr) end;
    exists s'; (split; [reflexivity|]); rewrite Ht, Hd, Hr; cbn;
    now rewrite <- app_assoc.
Qed.

(** X5. Once the screen condition is selected, [fill_form] runs exactly
    seven scripts, in this order and whatever the browser answers: the
    radio CPBP01 is checked, the five defect checkboxes are unchecked, the
    checkbox CISS is checked. It returns [True], keeps the session and
    leaves the results alone. *)
Theorem finish_form_calls s :
  exists s',
    finish_form s = (Ok true, s') /\
    trace s' =
      trace s
        ++ ExecuteScript (driver s) (check_radio_script "CPBP01") []
        :: map (fun i => ExecuteScript (driver s) (check_checkbox_script i false) [])
               issue_checkboxes
        ++ [ExecuteScript (driver s) (check_checkbox_script "CISS" true) []] /\
    driver s' = driver s /\
    results_df s' = results_df s.
Proof.
  unfold finish_form. run. unfold select_body_condition. rewrite bind_try.
  unfold bind at 1. rewrite js_check_radio_exact.
  cbn [env driver wait short_wait results_df trace stdout].
  destruct (perform _ (tick 1 (env s))) as [[v|e] env1]; exec;
    unfold set_issues; rewrite bind_try;
    match goal with |- context [bind (for_ issue_checkboxes ?body) _ ?s1] =>
      destruct (uncheck_all issue_checkboxes s1) as (s2 & E2 & Ht & Hd & Hr) end;
    rewrite (bind_ok _ _ _ _ _ E2); unfold bind at 1;
    rewrite js_check_checkbox_exact;
    destruct (perform _ (env s2)) as [[v2|e2] env2]; exec;
    eexists; (split; [reflexivity|]);
    cbn [trace driver results_df]; rewrite Ht, Hd, Hr; cbn [trace driver results_df];
    (split; [|split; reflexivity]); rewrite <- !app_assoc; reflexivity.
Qed.

(** X6. When the wait for the first selector, [.valuationAmount], gives an
    element whose stripped text is not empty, [extract_price] asks nothing
    else of the browser: no other selector, no scan of the document. The
    result is what the price pattern finds in that text. *)
Theorem extract_price_first_selector s el env1 t env2 :
  perform (Until (short_wait s)
             (visibility_of_element_located By_CSS_SELECTOR ".valuationAmount"))
          (tick 1 (env s)) = (Ok el, env1) ->
  perform (Text el) env1 = (Ok t, env2) ->
  PyStr.truthy (PyStr.strip t) = true ->
  exists price s',
    parse_price (PyStr (PyStr.strip t)) = Ok price /\
    extract_price s = (Ok price, s') /\
    trace s' =
      trace s ++ [Until (short_wait s)
                    (visibility_of_element_located By_CSS_SELECTOR ".valuationAmount");
                  Text el] /\
    env s' = env2.
Proof.
  intros Hw Ht Hs.
  assert (Hp : exists price, parse_price (PyStr (PyStr.strip t)) = Ok price).
  { unfold parse_price. cbn [py_truthy py_contains]. rewrite Hs.
    destruct (PyStr.contains "RM" _); [|eauto].
    destruct (Re.search_price _); eauto. }
  destruct Hp as (price & Hp). exists price.
  unfold extract_price, try_except. run.
  unfold price_selectors. cbn [find_price_text]. exec. rewrite bind_call.
  cbn [env driver wait short_wait results_df trace stdout]. rewrite Hw.
  exec. rewrite bind_call.
  cbn [env driver wait short_wait results_df trace stdout]. rewrite Ht.
  exec. cbn [py_truthy]. rewrite Hs. cbn [negb]. exec.
  unfold lift. rewrite Hp. eexists. repeat split.
  cbn [trace]. now rewrite <- app_assoc.
Qed.

(** ** The shape of a price *)

Lemma span_digits_digits s :
  PyStr.all_digits (Re.span_digits s).1 = true.
Proof.
  induction s as [|c s IH]; cbn [Re.span_digits]; [reflexivity|].
  destruct (PyStr.is_digit c) eqn:Hc; [|reflexivity].
  destruct (Re.span_digits s) as [d r]. cbn [fst PyStr.all_digits] in *.
  now rewrite Hc, IH.
Qed.

Lemma truthy_nonempty s : PyStr.truthy s = true -> s <> "".
Proof. now destruct s. Qed.

Lemma match_number_decimal s g : Re.match_number s = Some g -> is_decimal g.
Proof.
  unfold Re.match_number.
  pose proof (span_digits_digits s) as Hd.
  destruct (Re.span_digits s) as [d r]. cbn [fst] in Hd.
  destruct (PyStr.truthy d) eqn:Htd; [|discriminate].
  apply truthy_nonempty in Htd.
  assert (Hplain : Some d = Some g -> is_decimal g).
  { intros [= <-]. exists d. auto. }
  destruct r as [|c r]; [exact Hplain|].
  destruct (Ascii.eqb_spec c "."%char) as [->|Hne].
  - pose proof (span_digits_digits r) as Hf.
    destruct (Re.span_digits r) as [f r']. cbn [fst] in Hf.
    destruct (PyStr.truthy f) eqn:Htf; [|exact Hplain].
    apply truthy_nonempty in Htf. intros [= <-].
    exists d. repeat split; auto. right. exists f. auto.
  - destruct c as [[] [] [] [] [] [] [] []]; try exact Hplain. congruence.
Qed.

Lemma search_price_decimal s g : Re.search_price s = Some g -> is_decimal g.
Proof.
  induction s as [|c s IH]; cbn [Re.search_price].
  - cbn. discriminate.
  - destruct (Re.match_price_at (String c s)) as [g'|] eqn:E; [|exact IH].
    intros [= <-]. unfold Re.match_price_at in E.
    destruct c as [[] [] [] [] [] [] [] []]; try discriminate.
    destruct s as [|c2 s]; [discriminate|].
    destruct c2 as [[] [] [] [] [] [] [] []]; try discriminate.
    now apply match_number_decimal in E.
Qed.

Lemma parse_price_ok v p : parse_price v = Ok p -> price_ok p.
Proof.
  unfold parse_price. destruct (py_truthy v); [|intros [= <-]; now left].
  destruct v as [| b | z | text]; cbn [py_contains]; try discriminate.
  destruct (PyStr.contains "RM" text); [|intros [= <-]; now left].
  destruct (Re.search_price text) as [g|] eqn:Hs; intros [= <-].
  - right. now apply search_price_decimal in Hs.
  - now left.
Qed.

Lemma returns_extract_price : returns price_ok extract_price.
Proof.
  intros s p s'. unfold extract_price, try_except.
  match goal with |- context [match ?b s with _ => _ end] => set (body := b) end.
  destruct (body s) as [[price|e] s1] eqn:E.
  - intros [= <- _]. subst body. revert E. run. intros E.
    apply bind_Ok_inv in E as (pt & s2 & _ & E).
    apply bind_Ok_inv in E as (pt' & s3 & _ & E).
    unfold lift in E. apply (parse_price_ok pt'). congruence.
  - run. intros [= <- _]. now left.
Qed.

Lemma returns_submit_form_and_get_price :
  returns price_ok submit_form_and_get_price.
Proof.
  intros s p s'. unfold submit_form_and_get_price, try_except.
  match goal with |- context [match ?b s with _ => _ end] => set (body := b) end.
  destruct (body s) as [[price|e] s1] eqn:E.
  - intros [= <- _]. subst body. revert E. run. intros E.
    apply bind_Ok_inv in E as (? & ? & _ & E).
    apply bind_Ok_inv in E as (? & ? & _ & E). revert E. run. intros E.
    apply bind_Ok_inv in E as (p' & s4 & E & E'). unfold ret in E'.
    apply (returns_extract_price _ _ _) in E. congruence.
  - run. intros [= <- _]. now left.
Qed.

(** X7. The price that the quote stage hands to the record is always the
    empty string or a decimal numeral (digits, optionally a point and
    digits): [parse_price] gives nothing else, and
    [submit_form_and_get_price], which never raises, returns nothing
    else. *)
Theorem price_is_empty_or_decimal :
  (forall v p, parse_price v = Ok p -> price_ok p) /\
  (forall s, exists p s',
     submit_form_and_get_price s = (Ok p, s') /\ price_ok p).
Proof.
  split; [exact parse_price_ok|].
  intros s. destruct (total_submit_form_and_get_price s) as (p & s' & E).
  exists p, s'. split; [exact E|].
  exact (returns_submit_form_and_get_price _ _ _ E).
Qed.

(** ** The rows of the result table *)

Lemma make_result_dom date b m c p :
  dom (make_result (defaults_dict date) b m c p) = list_to_set columns.
Proof.
  unfold make_result, dict_update, defaults_dict, columns. cbv zeta.
  destruct (Re.search_capacity m);
    rewrite ?dom_insert_L, dom_union_L, !dom_insert_L, !dom_singleton_L;
    cbn [list_to_set]; set_solver.
Qed.

Lemma make_result_unit_row_ok date b m c p :
  price_ok p -> unit_row_ok date b m c (make_result (defaults_dict date) b m c p).
Proof.
  intros Hp. unfold unit_row_ok. split; [apply make_result_dom|].
  rewrite !make_result_lookup by discriminate.
  unfold dict_update, defaults_dict.
  repeat split; try reflexivity.
  exists p. split; [reflexivity | exact Hp].
Qed.

Lemma make_result_row_ok date b m c p :
  b ∈ brands -> c ∈ screen_conditions -> price_ok p ->
  row_ok date (make_result (defaults_dict date) b m c p).
Proof.
  intros Hb Hc Hp.
  destruct (make_result_unit_row_ok date b m c p Hp)
    as (? & ? & ? & ? & ? & ? & ? & ? & ? & ? & ? & ? & ? & ?).
  unfold row_ok. repeat split; eauto.
Qed.

(** A pass of the loop over the conditions leaves the table as it was or
    appends the entry of its work unit, with a price of the right shape. *)
Lemma process_condition_row d b m c s :
  results_df (process_condition d b m c s).2 = results_df s \/
  exists price,
    price_ok price /\
    results_df (process_condition d b m c s).2
      = results_df s ++ [make_result d b m c price].
Proof.
  unfold process_condition. pose proof (df_navigate c s) as Hn.
  destruct (navigate c s) as [[c0|e] s0] eqn:En; cbn [snd] in Hn.
  2:{ rewrite (bind_raise _ _ _ _ _ En). now left. }
  rewrite (bind_ok _ _ _ _ _ En). rewrite <- Hn.
  destruct c0; try (now left).
  unfold try_except, work_unit. rewrite !bind_assoc.
  pose proof (df_open_condition_form b m s0) as H1.
  destruct (open_condition_form b m s0) as [[[]|e] s1] eqn:E1; cbn [snd] in H1.
  2:{ rewrite (bind_raise _ _ _ _ _ E1). left. now rewrite df_recover. }
  rewrite (bind_ok _ _ _ _ _ E1). rewrite ?bind_assoc.
  pose proof (df_fill_form c s1) as H2.
  destruct (fill_form c s1) as [[filled|e] s2] eqn:E2; cbn [snd] in H2.
  2:{ rewrite (bind_raise _ _ _ _ _ E2). left. rewrite df_recover. congruence. }
  rewrite (bind_ok _ _ _ _ _ E2). rewrite ?bind_assoc.
  destruct filled.
  - destruct (total_submit_form_and_get_price s2) as (price & s3 & E3).
    pose proof (returns_submit_form_and_get_price _ _ _ E3) as Hp.
    pose proof (df_submit_form_and_get_price s2) as H3. rewrite E3 in H3.
    cbn [snd] in H3. unfold record_quote. rewrite !bind_assoc.
    rewrite (bind_ok _ _ _ _ _ E3). cbv zeta. unfold append_result. exec.
    match goal with |- context [bind (save_progress c) _ ?s4] =>
      destruct (total_save_progress c s4) as ([] & s5 & E5);
      pose proof (df_save_progress c s4) as H5 end.
    rewrite E5 in H5. cbn [snd results_df] in H5.
    rewrite (bind_ok _ _ _ _ _ E5). exec. cbn [snd].
    right. exists price. split; [exact Hp|]. congruence.
  - exec.
    destruct (total_save_progress c s2) as ([] & s5 & E5).
    pose proof (df_save_progress c s2) as H5. rewrite E5 in H5. cbn [snd] in H5.
    rewrite (bind_ok _ _ _ _ _ E5). exec. cbn [snd]. left. congruence.
Qed.

Lemma keeps_for_each_in {X Y} (f : St Env -> X) (R : relation X) `{!PreOrder R}
    (xs : list Y) (body : Y -> M Flow) :
  (forall x, x ∈ xs -> keeps f R (body x)) -> keeps f R (for_each xs body).
Proof.
  induction xs as [|x xs IH]; intros Hb; cbn [for_each].
  - apply keeps_ret, _.
  - apply keeps_bind; try apply _; [apply Hb; left|].
    intros [| |]; try (apply keeps_ret, _);
      apply IH; intros y Hy; apply Hb; now right.
Qed.

Section Rows.

Variable P : gmap string string -> Prop.
Variable defaults : gmap string string.

(** Goals of the form [keeps results_df (carries P) m], for the parts of
    the main loop that are not the append. *)
Ltac carry :=
  repeat
    lazymatch goal with
    | |- keeps _ _ (bind _ _) => apply keeps_bind; try apply _; [|intros ?]
    | |- keeps _ _ (try_except _ _) => apply keeps_try; try apply _; [|intros ?]
    | |- keeps _ _ (ret _) => apply keeps_ret; apply _
    | |- keeps _ _ (match ?x with _ => _ end) => destruct x
    | |- keeps _ _ (call ?o) =>
        exact (keeps_call results_df (carries P) (steps_keep_df (carries P)) o)
    | |- keeps _ _ (sleep _) =>
        apply (keeps_sleep results_df (carries P) (steps_keep_df (carries P)))
    | |- keeps _ _ (print _) =>
        apply (keeps_print results_df (carries P) (steps_keep_df (carries P)))
    | |- keeps _ _ get_driver => apply keeps_get_driver; apply _
    | |- keeps _ _ (open_condition_form _ _) =>
        apply (keeps_open_condition_form results_df (carries P)
                 (steps_keep_df (carries P)))
    | |- keeps _ _ (fill_form _) =>
        apply (keeps_fill_form results_df (carries P) (steps_keep_df (carries P)))
    | |- keeps _ _ (save_progress _) =>
        apply (keeps_save_progress results_df (carries P)
                 (steps_keep_df (carries P)))
    | |- keeps _ _ (navigate _) =>
        apply (keeps_navigate results_df (carries P) (steps_keep_df (carries P)))
    | |- keeps _ _ (recover _ _ _) =>
        apply (keeps_recover results_df (carries P) (steps_keep_df (carries P)))
    | |- keeps _ _ switch_to_iframe_of_brand =>
        apply (keeps_switch_to_iframe_of_brand results_df (carries P)
                 (steps_keep_df (carries P)))
    | |- keeps _ _ (load_models _) =>
        apply (keeps_load_models results_df (carries P)
                 (steps_keep_df (carries P)))
    | |- _ => fail
    end.

Lemma record_quote_carries b m c :
  (forall price, price_ok price -> P (make_result defaults b m c price)) ->
  keeps results_df (carries P) (record_quote defaults b m c).
Proof.
  intros HP s Hall. unfold record_quote.
  destruct (total_submit_form_and_get_price s) as (price & s1 & E).
  pose proof (returns_submit_form_and_get_price _ _ _ E) as Hp.
  pose proof (df_submit_form_and_get_price s) as Hdf. rewrite E in Hdf.
  cbn [snd] in Hdf. rewrite (bind_ok _ _ _ _ _ E). cbv zeta.
  unfold append_result. exec. unfold print. cbn [snd results_df]. rewrite Hdf.
  apply Forall_app. split; [exact Hall|]. constructor; [auto | constructor].
Qed.

Lemma process_condition_carries b m c :
  (forall price, price_ok price -> P (make_result defaults b m c price)) ->
  keeps results_df (carries P) (process_condition defaults b m c).
Proof.
  intros HP. unfold process_condition, work_unit. carry.
  now apply record_quote_carries.
Qed.

Lemma process_model_carries b m :
  (forall c price,
     c ∈ screen_conditions -> price_ok price ->
     P (make_result defaults b m c price)) ->
  keeps results_df (carries P) (process_model defaults b m).
Proof.
  intros HP. unfold process_model. carry.
  apply keeps_for_each_in; try apply _.
  intros c Hc. apply process_condition_carries. auto.
Qed.

Lemma process_brand_carries b :
  (forall m c price,
     c ∈ screen_conditions -> price_ok price ->
     P (make_result defaults b m c price)) ->
  keeps results_df (carries P) (process_brand defaults b).
Proof.
  intros HP. unfold process_brand. carry.
  apply keeps_for_each; try apply _.
  intros m. apply process_model_carries. auto.
Qed.

Lemma main_loop_carries :
  (forall b m c price,
     b ∈ brands -> c ∈ screen_conditions -> price_ok price ->
     P (make_result defaults b m c price)) ->
  keeps results_df (carries P) (main_loop defaults).
Proof.
  intros HP. unfold main_loop. carry.
  apply keeps_for_each_in; try apply _.
  intros b Hb. apply process_brand_carries. auto.
Qed.

End Rows.

(** X8. The entry that a work unit appends has exactly the fifteen columns
    of the table, the fixed entries (Malaysia, Trade-In, MYR, the source
    name, empty Color, Launch RRP, Updated by and Comments), the date of
    the defaults, the Brand, Model and Condition of that work unit, and a
    Value that is empty or a decimal numeral. In the table of a run that
    returns, every row is of that form, for the date that is read when the
    browser has been set up, with a Brand among the two brands and a
    Condition among the three conditions. *)
Theorem rows_of_a_run :
  (forall date brand model condition s,
     results_df (process_condition (defaults_dict date) brand model condition s).2
       = results_df s \/
     exists row,
       results_df (process_condition (defaults_dict date) brand model condition s).2
         = results_df s ++ [row] /\
       unit_row_ok date brand model condition row) /\
  (forall s b s',
     scrape_trade_in_prices s = (Ok b, s') ->
     Forall (row_ok (today (env (setup_driver headless s).2))) (results_df s')).
Proof.
  split.
  - intros date brand model condition s.
    destruct (process_condition_row (defaults_dict date) brand model condition s)
      as [H|(price & Hp & H)]; [now left|].
    right. eexists. split; [exact H|]. now apply make_result_unit_row_ok.
  - intros s b s'. unfold scrape_trade_in_prices. intros H.
    apply bind_Ok_inv in H as (d & s1 & Hsetup & H). rewrite Hsetup. cbn [snd].
    revert H. run. cbv zeta.
    match goal with |- bind (main_loop (defaults_dict ?dt)) ?k ?s2 = _ -> _ =>
      set (s0 := s2) end.
    intros H.
    assert (Hk : keeps results_df (carries (row_ok (today (env s1))))
                   (bind (main_loop (defaults_dict (today (env s1))))
                      (fun _ => finish_run))).
    { apply keeps_bind; try apply _.
      - apply main_loop_carries. intros. now apply make_result_row_ok.
      - intros _. apply keeps_finish_run; try apply _. apply steps_keep_df, _. }
    specialize (Hk s0). rewrite H in Hk. apply Hk. constructor.
Qed.

(** ** The session of a run *)

Lemma close_browser_exact s :
  exists s',
    close_browser s = (Ok tt, s') /\
    trace s' = trace s ++ [Quit (driver s)] /\
    driver s' = driver s /\ results_df s' = results_df s.
Proof.
  unfold close_browser, try_except. rewrite bind_get_driver, bind_call.
  destruct (perform _ (env s)) as [[[]|e] env1];
    eexists; (split; [reflexivity|]); cbn; auto.
Qed.

(** X9. A run that returns has opened its browser with the first call it
    made and has closed the session it holds at the end with the last
    one. *)
Theorem session_opened_first_closed_last s b s' :
  scrape_trade_in_prices s = (Ok b, s') ->
  exists mid,
    trace s' =
      trace s ++ NewChrome (chrome_options headless) :: mid ++ [Quit (driver s')].
Proof.
  unfold scrape_trade_in_prices, setup_driver. rewrite !bind_assoc, bind_call.
  destruct (perform _ (env s)) as [[d|e] env1]; [|discriminate].
  rewrite !bind_assoc, bind_call.
  cbn [env driver wait short_wait results_df trace stdout].
  destruct (perform _ env1) as [[[]|e] env2]; [|discriminate].
  rewrite !bind_assoc, bind_call.
  cbn [env driver wait short_wait results_df trace stdout].
  destruct (perform _ env2) as [[v|e] env3]; [|discriminate].
  exec. cbv zeta.
  match goal with |- bind (main_loop ?defs) ?k ?s2 = _ -> _ =>
    set (D := defs); set (s0 := s2) end.
  intros H. apply bind_Ok_inv in H as ([] & s1 & Hm & H).
  unfold finish_run in H. apply bind_Ok_inv in H as ([] & s2 & Hs & H).
  destruct (close_browser_exact s2) as (s3 & Hc & Ht & Hd & _).
  rewrite (bind_ok _ _ _ _ _ Hc) in H. revert H. run. intros H.
  assert (s3 = s') by (unfold ret in H; congruence). subst s3.
  pose proof (keeps_main_loop trace prefix steps_keep_trace
                (fun _ _ _ _ _ => append_keeps_trace _) D s0) as P1.
  rewrite Hm in P1. cbn [snd] in P1.
  pose proof (keeps_save_results trace prefix steps_keep_trace s1) as P2.
  rewrite Hs in P2. cbn [snd] in P2.
  destruct P1 as [k1 E1], P2 as [k2 E2].
  exists ([SetPageLoadTimeout d 60; ExecuteScript d anti_detection_script []]
            ++ k1 ++ k2).
  rewrite Ht, Hd, E2, E1. subst s0. cbn [trace]. rewrite <- !app_assoc.
  reflexivity.
Qed.

(** X10. A run can only raise while its browser is being set up, and
    then nothing else is done: no table is started, no file is written,
    nothing of the [finally] block is run. Once the browser is set up the
    run returns, whatever the browser does after that. *)
Theorem run_raises_only_at_setup s :
  match setup_driver headless s with
  | (Raise e, s1) => scrape_trade_in_prices s = (Raise e, s1)
  | (Ok _, _) => exists b s', scrape_trade_in_prices s = (Ok b, s')
  end.
Proof.
  unfold scrape_trade_in_prices.
  destruct (setup_driver headless s) as [[d|e] s1] eqn:E.
  - rewrite (bind_ok _ _ _ _ _ E). run. cbv zeta.
    match goal with |- context [bind (main_loop ?D) _ ?s0] =>
      destruct (total_main_loop D s0) as ([] & s2 & Em) end.
    rewrite (bind_ok _ _ _ _ _ Em).
    destruct (finish_run_result s2) as (s3 & Ef). eauto.
  - now rewrite (bind_raise _ _ _ _ _ E).
Qed.

(** ** A work unit that fails *)

(** X11. When an exception escapes the try block of a work unit and the
    probe [driver.current_url] answers, the pass ends with [continue]: the
    probe is the only call of the handler, the session and the wait
    helpers stay, no entry is added, and the loop over the conditions goes
    on. *)
Theorem live_session_is_kept defaults brand model condition s0 s e s1 url env2 :
  navigate condition s0 = (Ok Fallthrough, s) ->
  work_unit defaults brand model condition s = (Raise e, s1) ->
  perform (CurrentUrl (driver s1)) (env s1) = (Ok url, env2) ->
  process_condition defaults brand model condition s0 =
    (Ok Continue,
     mkSt env2 (driver s1) (wait s1) (short_wait s1) (results_df s1)
          (trace s1 ++ [CurrentUrl (driver s1)])
          (stdout s1 ++
             ["[ERROR] Failed to process " +:+ model +:+ " with " +:+ condition
                +:+ ": " +:+ exn_text e])) /\
  results_df s1 = results_df s0.
Proof.
  intros Hnav Hwork Hprobe. split.
  - unfold process_condition. rewrite (bind_ok _ _ _ _ _ Hnav).
    rewrite (try_raise _ _ _ _ _ (bind_raise _ _ _ _ _ Hwork)).
    unfold recover. exec. rewrite bind_call.
    cbn [env driver wait short_wait results_df trace stdout]. rewrite Hprobe.
    exec. reflexivity.
  - pose proof (work_unit_raise_df defaults brand model condition s e) as Hr.
    rewrite Hwork in Hr. cbn [fst snd] in Hr. rewrite (Hr eq_refl).
    pose proof (df_navigate condition s0) as Hn. now rewrite Hnav in Hn.
Qed.

(** X12. What [navigate] gives is fixed by the answers to its four
    calls. When the page load raises, [navigate] raises that exception.
    Otherwise it returns: with [continue] when the wait for the frame
    raises, when the listing of the frames raises, when no frame is
    listed, and when the switch to frame 0 raises; it lets the pass go on
    only when all four calls have answered. Its calls are those made up
    to that point, in this order, and the session and the results are
    left alone. *)
Theorem navigate_outcomes condition s :
  let d := driver s in
  let frame := presence_of_element_located By_TAG_NAME "iframe" in
  let ends (c : Flow) (calls : list Op) :=
    exists s',
      navigate condition s = (Ok c, s') /\ trace s' = trace s ++ calls /\
      driver s' = driver s /\ results_df s' = results_df s in
  match perform (Get d URL) (env s) with
  | (Raise e, _) => (navigate condition s).1 = Raise e
  | (Ok _, env1) =>
      match perform (Until (wait s) frame) (tick 1 env1) with
      | (Raise _, _) => ends Continue [Get d URL; Until (wait s) frame]
      | (Ok _, env2) =>
          match perform (FindElements d By_TAG_NAME "iframe") (tick 1 env2) with
          | (Raise _, _) =>
              ends Continue [Get d URL; Until (wait s) frame;
                             FindElements d By_TAG_NAME "iframe"]
          | (Ok iframes, env3) =>
              if (0 <? length iframes)%nat then
                match perform (SwitchToFrame d 0) env3 with
                | (Raise _, _) =>
                    ends Continue [Get d URL; Until (wait s) frame;
                                   FindElements d By_TAG_NAME "iframe";
                                   SwitchToFrame d 0]
                | (Ok _, _) =>
                    ends Fallthrough [Get d URL; Until (wait s) frame;
                                      FindElements d By_TAG_NAME "iframe";
                                      SwitchToFrame d 0]
                end
              else
                ends Continue [Get d URL; Until (wait s) frame;
                               FindElements d By_TAG_NAME "iframe"]
          end
      end
  end.
Proof.
  cbv zeta. unfold navigate. run. rewrite bind_call.
  cbn [env driver wait short_wait results_df trace stdout].
  destruct (perform (Get _ _) (env s)) as [[[]|e] env1]; cbn [fst];
    [|reflexivity].
  run. unfold switch_to_iframe, try_except. run. rewrite bind_call.
  cbn [env driver wait short_wait results_df trace stdout].
  destruct (perform (Until _ _) _) as [[el|e] env2];
    [|eexists; split; [reflexivity|]; cbn; rewrite <- !app_assoc; auto].
  run. rewrite bind_call.
  cbn [env driver wait short_wait results_df trace stdout].
  destruct (perform (FindElements _ _ _) _) as [[l|e] env3];
    [|eexists; split; [reflexivity|]; cbn; rewrite <- !app_assoc; auto].
  destruct (0 <? length l)%nat;
    [|eexists; split; [reflexivity|]; cbn; rewrite <- !app_assoc; auto].
  run. rewrite bind_call.
  cbn [env driver wait short_wait results_df trace stdout].
  destruct (perform (SwitchToFrame _ _) _) as [[[]|e] env4];
    eexists; (split; [reflexivity|]); cbn; rewrite <- !app_assoc; auto.
Qed.

(** X13. [save_progress] writes the table as it stands, once, whatever its
    length (an empty table too) and whether or not the work unit added an
    entry; a failure of the write is printed and goes no further. The
    message of the [else] branch is never printed. *)
Theorem save_progress_always_saves condition s :
  exists s',
    save_progress condition s = (Ok tt, s') /\
    trace s' = trace s ++ [ToExcel (results_df s) output_excel_path] /\
    results_df s' = results_df s /\
    stdout s' =
      stdout s ++
        [match (perform (ToExcel (results_df s) output_excel_path) (env s)).1 with
         | Ok _ => "[INFO] Saved progress to " +:+ output_excel_path
         | Raise e => "[WARNING] Could not save progress: " +:+ exn_text e
         end].
Proof.
  unfold save_progress. run. rewrite Nat.mod_1_r. cbn [Nat.eqb].
  unfold try_except. rewrite bind_call.
  destruct (perform _ (env s)) as [[[]|e] env1];
    eexists; (split; [reflexivity|]); cbn; auto.
Qed.

(** ** The number of rows *)

Lemma grows_keeps {A} (m : M A) k : keeps results_df eq m -> grows_by k m.
Proof. intros H s. rewrite <- (H s). lia. Qed.

Lemma grows_weaken {A} k k' (m : M A) : k <= k' -> grows_by k m -> grows_by k' m.
Proof. intros Hk H s. specialize (H s). lia. Qed.

Lemma grows_bind {A B} a b (m : M A) (k : A -> M B) :
  grows_by a m -> (forall x, grows_by b (k x)) -> grows_by (a + b) (bind m k).
Proof.
  intros Hm Hk s. unfold bind. specialize (Hm s).
  destruct (m s) as [[x|e] s1]; cbn [snd] in *; [|lia].
  specialize (Hk x s1). lia.
Qed.

Lemma grows_try {A} a b (m : M A) h :
  grows_by a m -> (forall e, grows_by b (h e)) -> grows_by (a + b) (try_except m h).
Proof.
  intros Hm Hh s. unfold try_except. specialize (Hm s).
  destruct (m s) as [[x|e] s1]; cbn [snd] in *; [lia|].
  specialize (Hh e s1). lia.
Qed.

Lemma grows_for_each {Y} k (xs : list Y) (body : Y -> M Flow) :
  (forall x, grows_by k (body x)) -> grows_by (length xs * k) (for_each xs body).
Proof.
  intros Hb. induction xs as [|x xs IH]; intros s; cbn [for_each length].
  - cbn. lia.
  - unfold bind. specialize (Hb x s).
    destruct (body x s) as [[c|e] s1]; cbn [snd] in *; [|lia].
    destruct c; try (specialize (IH s1); lia); cbn; lia.
Qed.

Lemma grows_process_condition d b m c : grows_by 1 (process_condition d b m c).
Proof.
  intros s. destruct (process_condition_df d b m c s) as [->|[p ->]]; [lia|].
  rewrite length_app. cbn. lia.
Qed.

Lemma grows_process_model d b m : grows_by 3 (process_model d b m).
Proof.
  unfold process_model.
  apply (grows_bind 0 3); [intros s; cbn; lia | intros _].
  apply (grows_bind 3 0); [|intros _ s; cbn; lia].
  apply (grows_for_each 1 screen_conditions), grows_process_condition.
Qed.

Lemma returns_bind {A B} (Q : B -> Prop) (m : M A) (k : A -> M B) :
  (forall a, returns Q (k a)) -> returns Q (bind m k).
Proof.
  intros Hk s b s' H. apply bind_Ok_inv in H as (a & s1 & _ & H).
  exact (Hk a s1 b s' H).
Qed.

Lemma load_models_length brand n s models s' :
  n_scrape = Some n -> (0 <= n)%Z ->
  load_models brand s = (Ok models, s') -> length models <= Z.to_nat n.
Proof.
  intros Hn Hpos. revert s models s'.
  change (returns (fun models => length models <= Z.to_nat n) (load_models brand)).
  unfold load_models. repeat (apply returns_bind; intros ?).
  rewrite Hn. cbv zeta. apply returns_bind. intros _ st got st' H.
  injection H as <- _. unfold slice_to.
  rewrite (proj2 (Z.leb_le 0 n) Hpos), length_take. lia.
Qed.

Lemma grows_process_brand n d b :
  n_scrape = Some n -> (0 <= n)%Z ->
  grows_by (Z.to_nat n * 3) (process_brand d b).
Proof.
  intros Hn Hpos s. unfold process_brand. run. rewrite bind_call.
  cbn [env driver wait short_wait results_df trace stdout].
  destruct (perform _ _) as [[[]|e] env1]; [|cbn; lia]. run. unfold bind at 1.
  match goal with |- context [switch_to_iframe_of_brand ?s1] =>
    pose proof (keeps_switch_to_iframe_of_brand results_df eq (steps_keep_df eq) s1)
      as Hsw;
    destruct (switch_to_iframe_of_brand s1) as [[c|e] s2] end;
    cbn [snd results_df] in Hsw; rewrite Hsw; [|cbn; lia].
  destruct c; try (cbn; lia).
  rewrite bind_try.
  pose proof (keeps_load_models results_df eq (steps_keep_df eq) b s2) as Hl.
  destruct (load_models b s2) as [[models|e] s3] eqn:E; cbn [snd] in Hl;
    rewrite Hl.
  - rewrite (bind_ok _ _ _ _ _ E). run.
    pose proof (load_models_length _ _ _ _ _ Hn Hpos E) as Hlen.
    pose proof (grows_bind (length models * 3) 0 _ (fun _ => ret Fallthrough)
                  (grows_for_each 3 models _ (grows_process_model d b))
                  (fun _ s => ltac:(cbn; lia)) s3) as Hg.
    change (ret (Some models) s3) with (Ok (Some models), s3). cbv beta iota.
    nia.
  - rewrite (bind_raise _ _ _ _ _ E). run. cbn. lia.
Qed.

Lemma grows_main_loop n d :
  n_scrape = Some n -> (0 <= n)%Z -> grows_by (6 * Z.to_nat n) (main_loop d).
Proof.
  intros Hn Hpos. unfold main_loop.
  apply (grows_weaken (length brands * (Z.to_nat n * 3) + 0));
    [change (length brands) with 2; lia|].
  apply grows_try; [|intros e s; cbn; lia].
  apply grows_for_each. intros b. now apply grows_process_brand.
Qed.

Lemma scrape_result s b s' :
  scrape_trade_in_prices s = (Ok b, s') -> b = negb (df_empty (results_df s')).
Proof.
  unfold scrape_trade_in_prices. intros H.
  apply bind_Ok_inv in H as (d & s1 & _ & H). revert H. run. cbv zeta. intros H.
  apply bind_Ok_inv in H as ([] & s2 & _ & H).
  destruct (finish_run_result s2) as (s3 & E). congruence.
Qed.

(** X14. With a cap [-n N] that is not negative, a run yields at most
    [6 * N] rows: two brands, at most [N] models each, three conditions
    for a model. With [-n 0] the run returns [False]. *)
Theorem rows_bounded_by_the_cap n s b s' :
  n_scrape = Some n -> (0 <= n)%Z ->
  scrape_trade_in_prices s = (Ok b, s') ->
  length (results_df s') <= 6 * Z.to_nat n /\ (n = 0%Z -> b = false).
Proof.
  intros Hn Hpos H. pose proof (scrape_result _ _ _ H) as Hb.
  assert (Hlen : length (results_df s') <= 6 * Z.to_nat n).
  { revert H. unfold scrape_trade_in_prices. intros H.
    apply bind_Ok_inv in H as (d & s1 & _ & H). revert H. run. cbv zeta.
    match goal with |- bind (main_loop ?defs) ?k ?s2 = _ -> _ =>
      set (D := defs); set (s0 := s2) end.
    intros H. apply bind_Ok_inv in H as ([] & s2 & Hm & H).
    pose proof (grows_main_loop n D Hn Hpos s0) as Hg. rewrite Hm in Hg.
    cbn [snd] in Hg.
    pose proof (keeps_finish_run results_df eq (steps_keep_df eq) s2) as Hf.
    rewrite H in Hf. cbn [snd] in Hf. rewrite <- Hf. subst s0. cbn in Hg. lia. }
  split; [exact Hlen|]. intros ->. rewrite Hb.
  destruct (results_df s'); [reflexivity | cbn in Hlen; lia].
Qed.

(** ** The options of a dropdown *)




(** ** The retry loop *)

Lemma retry_loop_result l s :
  exists b s',
    retry_loop l s = (Ok b, s') /\ (b = true -> results_df s' <> []).
Proof.
  revert s. induction l as [|a l IH]; intros s; cbn [retry_loop].
  { exists false, s. split; [reflexivity | discriminate]. }
  assert (Hrun : forall s1,
    exists b s',
      bind (try_except
              (bind scrape_trade_in_prices (fun result => ret result))
              (fun e =>
                 bind (print ("[ERROR] Attempt " +:+ PyStr.str_of_nat (a + 1)
                              +:+ " failed with error: " +:+ exn_text e))
                   (fun _ =>
                      bind (if (Z.of_nat a <? retry)%Z
                            then bind (print "[INFO] Waiting before next retry...")
                                   (fun _ => sleep 5)
                            else ret tt)
                        (fun _ => ret false))))
        (fun success : bool => if success then ret true else retry_loop l) s1
        = (Ok b, s') /\ (b = true -> results_df s' <> [])).
  { intros s1. rewrite bind_try.
    destruct (scrape_trade_in_prices s1) as [[r|e] s2] eqn:E.
    - rewrite (bind_ok _ _ _ _ _ E). unfold ret at 1. destruct r; [|apply IH].
      exists true, s2. split; [reflexivity|]. intros _.
      apply scrape_result in E. now destruct (results_df s2).
    - rewrite (bind_raise _ _ _ _ _ E).
      destruct (Z.of_nat a <? retry)%Z; exec; apply IH. }
  destruct (0 <? a)%nat; rewrite ?bind_assoc; run; apply Hrun.
Qed.

(** X16. The script can only raise at its first call, [os.makedirs]. Past
    it the retry loop catches whatever an attempt raises, the script ends
    with one of its two closing messages, and the message of success is
    printed only when the last attempt left a table that is not empty. *)
Theorem main_reports_the_outcome s :
  let dir := PyStr.dirname output_excel_path in
  match (perform (Makedirs (if PyStr.truthy dir then dir else ".")) (env s)).1 with
  | Raise e => (main s).1 = Raise e
  | Ok _ =>
      exists b s',
        main s = (Ok b, s') /\
        (b = true -> results_df s' <> []) /\
        last (stdout s') =
          Some (if b
                then "Script completed successfully. Results have been saved to the Excel file."
                else "Script failed after all retry attempts.")
  end.
Proof.
  cbv zeta. unfold main. cbv zeta. rewrite bind_call.
  destruct (perform _ (env s)) as [[[]|e] env1]; cbn [fst]; [|reflexivity].
  run.
  match goal with |- context [bind (retry_loop attempts) _ ?s1] =>
    destruct (retry_loop_result attempts s1) as (b & s2 & E & Hb) end.
  rewrite (bind_ok _ _ _ _ _ E).
  exists b. destruct b; run; eexists; (split; [reflexivity|]);
    cbn [results_df stdout]; (split; [exact Hb | apply last_snoc]).
Qed.

(** X17. With a negative [--retry] no attempt is made: after
    [os.makedirs] the script opens no browser and reports failure. *)
Theorem no_attempt_when_retry_is_negative s env1 :
  (retry < 0)%Z ->
  let dir := PyStr.dirname output_excel_path in
  perform (Makedirs (if PyStr.truthy dir then dir else ".")) (env s) = (Ok tt, env1) ->
  main s =
    (Ok false,
     mkSt env1 (driver s) (wait s) (short_wait s) (results_df s)
          (trace s ++ [Makedirs (if PyStr.truthy dir then dir else ".")])
          (stdout s ++ ["Saving output to: " +:+ output_excel_path;
                        "Script failed after all retry attempts."])).
Proof.
  intros Hr dir H. unfold main. cbv zeta. fold dir. rewrite bind_call, H. run.
  unfold attempts. replace (Z.to_nat (retry + 1)) with 0 by lia.
  cbn [seq retry_loop]. run. unfold ret. now rewrite <- app_assoc.
Qed.

(** ** The quote *)



(** X19. A submit button that cannot be found does not stop the work
    unit: the quote stage prints the failure and the entry is appended all
    the same, with an empty Value. *)
Theorem failed_submit_still_gives_a_row defaults brand model condition s e env1 :
  perform (FindElement (driver s) By_CSS_SELECTOR
             "input.btn.btn-success[type='submit']") (env s) = (Raise e, env1) ->
  exists s',
    record_quote defaults brand model condition s = (Ok tt, s') /\
    results_df s' = results_df s ++ [make_result defaults brand model condition ""] /\
    trace s' =
      trace s ++ [FindElement (driver s) By_CSS_SELECTOR
                    "input.btn.btn-success[type='submit']"].
Proof.
  intros H. unfold record_quote, submit_form_and_get_price.
  rewrite bind_try. run. rewrite bind_call, H. exec. cbv zeta.
  unfold append_result. exec. eexists. repeat split.
Qed.

(** ** The Capacity of a row *)

Lemma remove_spaces_app a b :
  PyStr.remove_spaces (a +:+ b) = PyStr.remove_spaces a +:+ PyStr.remove_spaces b.
Proof.
  induction a as [|c a IH]; [reflexivity|].
  change (String c a +:+ b) with (String c (a +:+ b)). cbn [PyStr.remove_spaces].
  rewrite IH. now destruct (Ascii.eqb c " "%char).
Qed.

Lemma remove_spaces_digits d :
  PyStr.all_digits d = true -> PyStr.remove_spaces d = d.
Proof.
  induction d as [|c d IH]; [reflexivity|]. cbn [PyStr.all_digits PyStr.remove_spaces].
  intros [Hc Hd]%andb_prop. rewrite (IH Hd).
  destruct (Ascii.eqb_spec c " "%char) as [->|_]; [discriminate Hc | reflexivity].
Qed.

Lemma span_spaces_gaps s :
  all_gaps (PyStr.remove_spaces (Re.span_spaces s).1) = true.
Proof.
  induction s as [|c s IH]; cbn [Re.span_spaces]; [reflexivity|].
  destruct (PyStr.is_space c) eqn:Hc; [|reflexivity].
  destruct (Re.span_spaces s) as [w r]. cbn [fst PyStr.remove_spaces] in *.
  destruct (Ascii.eqb c " "%char) eqn:Hsp; [exact IH|].
  cbn [all_gaps]. now rewrite Hc, Hsp, IH.
Qed.

Lemma match_capacity_at_shape s g :
  Re.match_capacity_at s = Some g -> capacity_ok (PyStr.remove_spaces g).
Proof.
  unfold Re.match_capacity_at.
  pose proof (span_digits_digits s) as Hd.
  destruct (Re.span_digits s) as [d r]. cbn [fst] in Hd.
  destruct (PyStr.truthy d) eqn:Htd; [|discriminate].
  apply truthy_nonempty in Htd.
  pose proof (span_spaces_gaps r) as Hw.
  destruct (Re.span_spaces r) as [w r']. cbn [fst] in Hw.
  assert (Hshape : forall u, (u = "GB" \/ u = "TB") ->
            capacity_ok (PyStr.remove_spaces (d +:+ w +:+ u))).
  { intros u Hu. right. exists d, (PyStr.remove_spaces w), u.
    repeat split; auto.
    rewrite !remove_spaces_app, (remove_spaces_digits d Hd).
    now destruct Hu as [->| ->]. }
  destruct r' as [|c1 r']; [discriminate|].
  destruct r' as [|c2 r''];
    [destruct c1 as [[] [] [] [] [] [] [] []]; discriminate|].
  destruct c1 as [[] [] [] [] [] [] [] []]; try discriminate;
    destruct c2 as [[] [] [] [] [] [] [] []]; try discriminate;
    intros [= <-]; apply Hshape; auto.
Qed.

Lemma search_capacity_shape s g :
  Re.search_capacity s = Some g -> capacity_ok (PyStr.remove_spaces g).
Proof.
  induction s as [|c s IH]; cbn [Re.search_capacity].
  - cbn. discriminate.
  - destruct (Re.match_capacity_at (String c s)) as [g'|] eqn:E; [|exact IH].
    intros [= <-]. now apply match_capacity_at_shape in E.
Qed.

Lemma make_result_unit_capacity_ok date b m c p :
  unit_capacity_ok m (make_result (defaults_dict date) b m c p).
Proof.
  unfold unit_capacity_ok. split.
  { rewrite make_result_lookup by discriminate. reflexivity. }
  unfold make_result. cbv zeta.
  destruct (Re.search_capacity m) as [g|] eqn:E.
  - exists (PyStr.remove_spaces g). split; [apply lookup_insert_eq|].
    split; [reflexivity|]. now apply search_capacity_shape in E.
  - exists "". split; [reflexivity|]. split; [reflexivity | now left].
Qed.

(** X20. The entry that a work unit appends carries the model of the work
    unit, and its Capacity is what the capacity pattern matches in the
    name of that model, without its space characters: digits and the unit
    GB or TB; it is empty when the pattern does not match. In the table of
    a run that returns, the Capacity of every row is the one that goes
    with the Model of the row in this way. *)
Theorem capacity_of_every_row :
  (forall date brand model condition s,
     results_df (process_condition (defaults_dict date) brand model condition s).2
       = results_df s \/
     exists row,
       results_df (process_condition (defaults_dict date) brand model condition s).2
         = results_df s ++ [row] /\
       unit_capacity_ok model row) /\
  (forall s b s',
     scrape_trade_in_prices s = (Ok b, s') ->
     Forall capacity_column_ok (results_df s')).
Proof.
  split.
  - intros date brand model condition s.
    destruct (process_condition_df (defaults_dict date) brand model condition s)
      as [H|[price H]]; [now left|].
    right. eexists. split; [exact H|]. apply make_result_unit_capacity_ok.
  - intros s b s'. unfold scrape_trade_in_prices. intros H.
    apply bind_Ok_inv in H as (d & s1 & _ & H). revert H. run. cbv zeta.
    match goal with |- bind (main_loop (defaults_dict ?dt)) ?k ?s2 = _ -> _ =>
      set (date := dt); set (s0 := s2) end.
    intros H.
    assert (Hk : keeps results_df (carries capacity_column_ok)
                   (bind (main_loop (defaults_dict date)) (fun _ => finish_run))).
    { apply keeps_bind; try apply _.
      - apply main_loop_carries. intros b0 m c p _ _ _. exists m.
        apply make_result_unit_capacity_ok.
      - intros _. apply keeps_finish_run; try apply _. apply steps_keep_df, _. }
    specialize (Hk s0). rewrite H in Hk. apply Hk. constructor.
Qed.

(** ** The session locals *)

#[local] Instance same_session_preorder : PreOrder same_session.
Proof.
  split; [intros s; now repeat split|].
  intros a b c (? & ? & ?) (? & ? & ?). repeat split; congruence.
Qed.

#[local] Instance stays_bound_preorder : PreOrder stays_bound.
Proof. split; [intros s; exact id | intros a b c H1 H2 H; auto]. Qed.

Create HintDb quiet.

Section Session.

(** A relation on states that holds whenever the session locals are the
    same: [same_session] itself, or [stays_bound]. *)
Variable R : relation (St Env).
Context `{!PreOrder R}.
Hypothesis Hsame : forall s s', same_session s s' -> R s s'.

Local Abbreviation quiet m := (keeps (fun s => s) R m).

Lemma quiet_call o : quiet (call o).
Proof.
  intros s. apply Hsame. unfold call. destruct (perform _ _). now repeat split.
Qed.
Lemma quiet_sleep n : quiet (sleep n).
Proof. intros s. apply Hsame. now repeat split. Qed.
Lemma quiet_print msg : quiet (print msg).
Proof. intros s. apply Hsame. now repeat split. Qed.
Lemma quiet_append r : quiet (append_result r).
Proof. intros s. apply Hsame. now repeat split. Qed.

Local Hint Resolve keeps_ret keeps_lift keeps_get_driver keeps_get_wait
  keeps_get_short_wait keeps_get_results_df quiet_sleep quiet_print
  quiet_append : quiet.

Ltac quiet_step :=
  lazymatch goal with
  | |- keeps _ _ (bind _ _) => apply keeps_bind; [apply _| |intros ?]
  | |- keeps _ _ (try_except _ _) => apply keeps_try; [apply _| |intros ?]
  | |- keeps _ _ (for_each _ _) => apply keeps_for_each; [apply _|intros ?]
  | |- keeps _ _ (for_ _ _) => apply keeps_for_; [apply _|intros ?]
  | |- keeps _ _ (match ?x with _ => _ end) => destruct x
  | |- keeps _ _ (let _ := _ in _) => cbv zeta
  | |- keeps _ _ (call ?o) => exact (quiet_call o)
  | |- keeps _ _ _ => solve [auto with quiet]
  end.

Ltac quiet_tac := repeat quiet_step.

Lemma quiet_setup_driver h : quiet (setup_driver h).
Proof. unfold setup_driver. quiet_tac. Qed.

Lemma quiet_js_click e : quiet (js_click e).
Proof. unfold js_click. quiet_tac. Qed.

Lemma quiet_js_check_radio i : quiet (js_check_radio i).
Proof. unfold js_check_radio. quiet_tac. Qed.

Lemma quiet_js_check_checkbox i b : quiet (js_check_checkbox i b).
Proof. unfold js_check_checkbox. quiet_tac. Qed.

Local Hint Resolve quiet_js_click quiet_js_check_radio
  quiet_js_check_checkbox : quiet.

Lemma quiet_fill_form c : quiet (fill_form c).
Proof.
  unfold fill_form, finish_form, select_screen_condition,
    select_by_other_methods, select_body_condition, set_issues.
  quiet_tac.
Qed.

Lemma quiet_find_price_text l : quiet (find_price_text l).
Proof. induction l as [|x l IH]; cbn [find_price_text]; quiet_tac. Qed.

Local Hint Resolve quiet_fill_form quiet_find_price_text : quiet.

Lemma quiet_submit_form_and_get_price : quiet submit_form_and_get_price.
Proof. unfold submit_form_and_get_price, extract_price. quiet_tac. Qed.

Lemma quiet_read_available_brands l acc : quiet (read_available_brands l acc).
Proof.
  revert acc. induction l as [|x l IH]; intros acc;
    cbn [read_available_brands]; quiet_tac.
Qed.

Lemma quiet_read_models l acc : quiet (read_models l acc).
Proof.
  revert acc. induction l as [|x l IH]; intros acc; cbn [read_models]; quiet_tac.
Qed.

Lemma quiet_find_brand_match b l : quiet (find_brand_match b l).
Proof. induction l as [|x l IH]; cbn [find_brand_match]; quiet_tac. Qed.

Local Hint Resolve quiet_submit_form_and_get_price quiet_read_available_brands
  quiet_read_models quiet_find_brand_match : quiet.

Lemma quiet_load_models b : quiet (load_models b).
Proof. unfold load_models, select_brand_of_brand_pass. quiet_tac. Qed.

Lemma quiet_work_unit d b m c : quiet (work_unit d b m c).
Proof.
  unfold work_unit, open_condition_form, select_brand_of_unit, record_quote,
    save_progress.
  quiet_tac.
Qed.

Lemma quiet_navigate c : quiet (navigate c).
Proof. unfold navigate, switch_to_iframe. quiet_tac. Qed.

Lemma quiet_finish_run : quiet finish_run.
Proof. unfold finish_run, save_results, close_browser. quiet_tac. Qed.

Local Hint Resolve quiet_load_models quiet_work_unit quiet_navigate : quiet.

(** The one place of the main loop that sets the session locals. *)
Hypothesis quiet_recreate_browser : quiet recreate_browser.

Local Hint Resolve quiet_recreate_browser : quiet.

Lemma quiet_main_loop d : quiet (main_loop d).
Proof.
  unfold main_loop, process_brand, switch_to_iframe_of_brand, process_model,
    process_condition, recover.
  quiet_tac.
Qed.

End Session.

Lemma recreate_browser_stays_bound :
  keeps (fun s => s) stays_bound recreate_browser.
Proof.
  intros s Hb. unfold recreate_browser. run. rewrite bind_call.
  destruct (perform _ (env s)) as [[[]|e] env1]; [|exact Hb].
  match goal with |- context [bind (setup_driver headless) _ ?s1] =>
    pose proof (quiet_setup_driver same_session (fun _ _ H => H) headless s1) as Hq;
    destruct (setup_driver headless s1) as [[d|e] s2] eqn:E end;
    cbn [snd] in Hq; destruct Hq as (Hd & Hw & Hs).
  - rewrite (bind_ok _ _ _ _ _ E). run. split; reflexivity.
  - rewrite (bind_raise _ _ _ _ _ E). cbn [snd]. unfold waits_bound.
    rewrite Hd, Hw, Hs. exact Hb.
Qed.

(** X21. When a run returns, its two wait helpers are bound to the
    session it holds at the end, with the timeouts of 15 and 5 seconds
    and the poll of half a second, however many times the session was
    replaced on the way. *)
Theorem wait_helpers_follow_the_session s b s' :
  scrape_trade_in_prices s = (Ok b, s') -> waits_bound s'.
Proof.
  unfold scrape_trade_in_prices. intros H.
  apply bind_Ok_inv in H as (d & s1 & _ & H). revert H. run. cbv zeta.
  match goal with |- bind (main_loop ?defs) ?k ?s2 = _ -> _ =>
    set (D := defs); set (s0 := s2) end.
  intros H.
  assert (Hk : keeps (fun s => s) stays_bound
                 (bind (main_loop D) (fun _ => finish_run))).
  { apply keeps_bind; try apply _.
    - apply quiet_main_loop; try apply _.
      + intros a c (Hd & Hw & Hs) Hb. unfold waits_bound.
        rewrite Hd, Hw, Hs. exact Hb.
      + exact recreate_browser_stays_bound.
    - intros _. apply quiet_finish_run; try apply _.
      intros a c (Hd & Hw & Hs) Hb. unfold waits_bound.
      rewrite Hd, Hw, Hs. exact Hb. }
  specialize (Hk s0). rewrite H in Hk. apply Hk. split; reflexivity.
Qed.

End Scraper.

(* ===================================================================== *)
(** * Concrete runs *)
(* ===================================================================== *)

Abbreviation sim_fill_form := (fill_form Sim.Env Sim.perform Sim.tick).
Abbreviation sim_defaults := (defaults_dict "2025-01-01").
Abbreviation sim_process_condition :=
  (process_condition Sim.Env Sim.perform Sim.tick "out/MY_RV_Source5.xlsx" true
     sim_defaults).
Abbreviation sim_process_model :=
  (process_model Sim.Env Sim.perform Sim.tick "out/MY_RV_Source5.xlsx" true
     sim_defaults).
Abbreviation sim_work_unit :=
  (work_unit Sim.Env Sim.perform Sim.tick "out/MY_RV_Source5.xlsx" sim_defaults).
Abbreviation sim_scrape :=
  (scrape_trade_in_prices Sim.Env Sim.perform Sim.tick Sim.today
     "out/MY_RV_Source5.xlsx" None true).

(** C1, counterexample. On a page whose condition form shows no control,
    the work unit (Apple, iPhone 13 128GB, Flawless) is attempted, its
    pass ends normally, and no entry is appended. *)
Lemma attempted_work_unit_without_record :
  (sim_process_condition "Apple" "iPhone 13 128GB" "Flawless"
     (Sim.on Sim.no_controls)).1 = Ok Fallthrough /\
  results_df (sim_process_condition "Apple" "iPhone 13 128GB" "Flawless"
                (Sim.on Sim.no_controls)).2 = [].
Proof. split; vm_compute; reflexivity. Qed.

(** C1, witness: on the healthy page the work unit (Apple, iPhone 13 128GB,
    Good) reaches the form, fills it and appends its one entry. *)
Lemma at_most_one_record_witness :
  (sim_work_unit "Apple" "iPhone 13 128GB" "Good" (Sim.on Sim.healthy)).1 = Ok tt /\
  exists price,
    results_df (sim_work_unit "Apple" "iPhone 13 128GB" "Good" (Sim.on Sim.healthy)).2
      = results_df (Sim.on Sim.healthy)
          ++ [make_result sim_defaults "Apple" "iPhone 13 128GB" "Good" price].
Proof.
  refine (proj1 (proj2 (at_most_one_record_per_work_unit Sim.Env Sim.perform
                          Sim.tick "out/MY_RV_Source5.xlsx" true sim_defaults
                          "Apple" "iPhone 13 128GB" "Good"))
            (Sim.on Sim.healthy)
            (open_condition_form Sim.Env Sim.perform Sim.tick "Apple"
               "iPhone 13 128GB" (Sim.on Sim.healthy)).2
            (sim_fill_form "Good"
               (open_condition_form Sim.Env Sim.perform Sim.tick "Apple"
                  "iPhone 13 128GB" (Sim.on Sim.healthy)).2).2
            true _ _); vm_compute; reflexivity.
Defined.



(** C3, the failing input. The page shows the screen-condition radios and
    neither the body radio CPBP01 nor the checkbox CISS. Both later steps
    report [False] (the two printed lines), and [fill_form] still returns
    [True]. *)
Theorem fill_form_succeeds_when_later_steps_fail :
  (sim_fill_form "Flawless" (Sim.on Sim.no_body_radio)).1 = Ok true /\
  In "[INFO] Body Flawless checked: False"
     (stdout (sim_fill_form "Flawless" (Sim.on Sim.no_body_radio)).2) /\
  In "[INFO] 'None of the above' checked: False"
     (stdout (sim_fill_form "Flawless" (Sim.on Sim.no_body_radio)).2).
Proof. vm_compute. intuition. Qed.

(** C4, witness: "Heavy Scratches" is not in the table. *)
Lemma screen_condition_mapping_witness :
  (sim_fill_form "Heavy Scratches" (Sim.on Sim.healthy)).1 = Ok false /\
  trace (sim_fill_form "Heavy Scratches" (Sim.on Sim.healthy)).2 = [].
Proof.
  pose proof (proj2 (proj2 (proj2 (proj2
    (screen_condition_mapping Sim.Env Sim.perform Sim.tick))))
    "Heavy Scratches" (Sim.on Sim.healthy)) as H.
  destruct H as (_ & _ & _ & H1 & H2 & _); try discriminate.
  split; [exact H1 | exact H2].
Defined.

(** C5, witness: on the blank page every wait raises and the scan returns
    the empty string. *)
Lemma extract_price_never_raises_witness :
  (extract_price Blank.Env Blank.perform Blank.tick Blank.start).1 = Ok "".
Proof.
  apply (proj2 (extract_price_never_raises Blank.Env Blank.perform Blank.tick)).
  - intros w c []. eexists _, _. reflexivity.
  - intros d [] v env'. cbn. congruence.
Defined.

(** C6, counterexample. On a page without any control of the form, the
    stage is asked for "Good", fails at the screen condition, and never
    runs the script for CPBP01. *)
Lemma body_radio_untouched_when_screen_fails :
  (sim_fill_form "Good" (Sim.on Sim.no_controls)).1 = Ok false /\
  existsb (runs_script (check_radio_script "CPBP01"))
          (trace (sim_fill_form "Good" (Sim.on Sim.no_controls)).2) = false.
Proof. split; vm_compute; reflexivity. Qed.

(** C6, witness: on the healthy page, for "Damaged". *)
Lemma body_condition_is_constant_witness :
  exists s1,
    sim_fill_form "Damaged" (Sim.on Sim.healthy)
      = finish_form Sim.Env Sim.perform Sim.tick s1 /\
    exists rest,
      trace (sim_fill_form "Damaged" (Sim.on Sim.healthy)).2 =
        trace s1 ++ ExecuteScript (driver s1) (check_radio_script "CPBP01") [] :: rest.
Proof.
  eexists.
  refine (body_condition_is_constant Sim.Env Sim.perform Sim.tick
            "Damaged" (Sim.on Sim.healthy)
            (select_screen_condition Sim.Env Sim.perform "Damaged"
               (sleep Sim.Env Sim.tick 1
                  (print Sim.Env "[INFO] Filling form with screen condition: Damaged"
                     (Sim.on Sim.healthy)).2).2).2 true _).
  vm_compute. reflexivity.
Defined.


(** C8, counterexample. The session dies after the page load of the first
    work unit: the frame wait raises and is caught without a probe, the
    page load of the next condition raises outside every handler of the
    work unit, and the loop over the models is left by that exception: no
    session is created, and the second model is never started. *)
Lemma session_death_outside_the_handler :
  (for_each Sim.Env ["iPhone 13 128GB"; "Galaxy S21 256GB"]
     (sim_process_model "Apple") (Sim.on (Sim.dies_after 1))).1
    = Raise Sim.session_lost /\
  filter (fun o => is_new_chrome o = true)
    (trace (for_each Sim.Env ["iPhone 13 128GB"; "Galaxy S21 256GB"]
              (sim_process_model "Apple") (Sim.on (Sim.dies_after 1))).2) = [] /\
  existsb (String.eqb (PyStr.nl +:+ "[INFO] Processing model: Galaxy S21 256GB"))
    (stdout (for_each Sim.Env ["iPhone 13 128GB"; "Galaxy S21 256GB"]
               (sim_process_model "Apple") (Sim.on (Sim.dies_after 1))).2) = false.
Proof. repeat split; vm_compute; reflexivity. Qed.

(** C8, witness. The session dies after the fourth call of the first
    work unit, so the wait for the brand dropdown raises inside the try
    block and the probe raises as well. Session 2 replaces session 1, no
    row is lost, and the loop goes on with the second model. *)
Lemma recovery_after_session_death_witness :
  exists s',
    sim_process_model "Apple" "iPhone 13 128GB" (Sim.on (Sim.dies_after 4))
      = (Ok Fallthrough, s') /\
    driver s' = 2 /\
    wait s' = mkWait 2 15 500 /\
    results_df s' = results_df (Sim.on (Sim.dies_after 4)) /\
    for_each Sim.Env ["iPhone 13 128GB"; "Galaxy S21 256GB"]
      (sim_process_model "Apple") (Sim.on (Sim.dies_after 4))
      = for_each Sim.Env ["Galaxy S21 256GB"] (sim_process_model "Apple") s'.
Proof.
  pose (sM := Sim.on (Sim.dies_after 4)).
  pose (s0 := (print Sim.Env
                 (PyStr.nl +:+ "[INFO] Processing model: " +:+ "iPhone 13 128GB") sM).2).
  pose (s := (navigate Sim.Env Sim.perform Sim.tick "Flawless" s0).2).
  pose (s1 := (sim_work_unit "Apple" "iPhone 13 128GB" "Flawless" s).2).
  pose (env2 := (Sim.perform (CurrentUrl (driver s1)) (env s1)).2).
  pose (env3 := (Sim.perform (Quit (driver s1)) env2).2).
  pose (env4 := (Sim.perform (NewChrome (chrome_options true)) env3).2).
  pose (env5 := (Sim.perform (SetPageLoadTimeout 2 60) env4).2).
  pose (env6 := (Sim.perform (ExecuteScript 2 anti_detection_script []) env5).2).
  assert (H1 : screen_conditions = [] ++ "Flawless" :: ["Good"; "Damaged"])
    by reflexivity.
  assert (H2 : passes Sim.Env (sim_process_condition "Apple" "iPhone 13 128GB") [] s0 s0)
    by constructor.
  assert (H3 : navigate Sim.Env Sim.perform Sim.tick "Flawless" s0 = (Ok Fallthrough, s))
    by (vm_compute; reflexivity).
  assert (H4 : sim_work_unit "Apple" "iPhone 13 128GB" "Flawless" s
               = (Raise Sim.session_lost, s1))
    by (vm_compute; reflexivity).
  assert (H5 : Sim.perform (CurrentUrl (driver s1)) (env s1)
               = (Raise Sim.session_lost, env2))
    by (vm_compute; reflexivity).
  assert (H6 : Sim.perform (Quit (driver s1)) env2 = (Ok tt, env3))
    by (vm_compute; reflexivity).
  assert (H7 : Sim.perform (NewChrome (chrome_options true)) env3 = (Ok 2, env4))
    by (vm_compute; reflexivity).
  assert (H8 : Sim.perform (SetPageLoadTimeout 2 60) env4 = (Ok tt, env5))
    by (vm_compute; reflexivity).
  assert (H9 : Sim.perform (ExecuteScript 2 anti_detection_script []) env5
               = (Ok PyNone, env6))
    by (vm_compute; reflexivity).
  pose proof (recovery_after_session_death Sim.Env Sim.perform Sim.tick
                "out/MY_RV_Source5.xlsx" true sim_defaults "Apple" "iPhone 13 128GB"
                [] "Flawless" ["Good"; "Damaged"] ["Galaxy S21 256GB"]
                sM s0 s s1 Sim.session_lost Sim.session_lost env2 env3 2 env4
                env5 PyNone env6 H1 H2 H3 H4 H5 H6 H7 H8 H9) as H.
  cbv zeta in H. destruct H as (_ & _ & _ & Hdf & _ & Hpm & Hloop).
  eexists. split; [exact Hpm|]. split; [reflexivity|]. split; [reflexivity|].
  split; [exact Hdf | exact Hloop].
Defined.


(** C10, witness: the rows of a run on the healthy page. *)
Lemma device_type_of_every_record_witness :
  Forall device_type_ok (results_df (sim_scrape (Sim.on Sim.healthy)).2).
Proof.
  refine (proj2 (device_type_of_every_record Sim.Env Sim.perform Sim.tick
                   Sim.today "out/MY_RV_Source5.xlsx" None true)
            (Sim.on Sim.healthy) true _ _).
  rewrite (surjective_pairing (sim_scrape (Sim.on Sim.healthy))) at 1.
  f_equal; vm_compute; reflexivity.
Defined.

(** ** Runs for the further properties *)

Abbreviation valuation_amount :=
  (visibility_of_element_located By_CSS_SELECTOR ".valuationAmount").
Abbreviation sim_scrape_capped :=
  (scrape_trade_in_prices Sim.Env Sim.perform Sim.tick Sim.today
     "out/MY_RV_Source5.xlsx" (Some 1%Z) true).
Abbreviation blank_text :=
  (fun e : WebElement => if (e =? 100)%nat then "Huawei" else "Oppo").

(** X2, witness: on the healthy page the radio of "Good" is checked by the
    direct script. *)
Lemma screen_condition_first_method_wins_witness :
  exists s',
    select_screen_condition Sim.Env Sim.perform "Good" (Sim.on Sim.healthy)
      = (Ok true, s') /\
    trace s' = trace (Sim.on Sim.healthy)
                 ++ [ExecuteScript (driver (Sim.on Sim.healthy))
                       (check_radio_script "CPTS02") []] /\
    env s' = Sim.healthy.
Proof.
  refine (screen_condition_first_method_wins Sim.Env Sim.perform "Good" "CPTS02"
            (Sim.on Sim.healthy) (PyBool true) Sim.healthy _ _ _);
    vm_compute; reflexivity.
Defined.


(** X6, witness: the healthy page shows its price under the first
    selector. *)
Lemma extract_price_first_selector_witness :
  exists price s',
    parse_price (PyStr (PyStr.strip "RM 1,234")) = Ok price /\
    extract_price Sim.Env Sim.perform Sim.tick (Sim.on Sim.healthy) = (Ok price, s') /\
    trace s' =
      trace (Sim.on Sim.healthy)
        ++ [Until (short_wait (Sim.on Sim.healthy)) valuation_amount; Text 5] /\
    env s' = Sim.healthy.
Proof.
  refine (extract_price_first_selector Sim.Env Sim.perform Sim.tick
            (Sim.on Sim.healthy) 5 Sim.healthy "RM 1,234" Sim.healthy _ _ _);
    vm_compute; reflexivity.
Defined.

(** X8, witness: the rows of a run on the healthy page. *)
Lemma rows_of_a_run_witness :
  Forall (row_ok "2025-01-01") (results_df (sim_scrape (Sim.on Sim.healthy)).2).
Proof.
  refine (proj2 (rows_of_a_run Sim.Env Sim.perform Sim.tick Sim.today
                   "out/MY_RV_Source5.xlsx" None true)
            (Sim.on Sim.healthy) true _ _).
  rewrite (surjective_pairing (sim_scrape (Sim.on Sim.healthy))) at 1.
  f_equal; vm_compute; reflexivity.
Defined.

(** X9, witness: the calls of a run on the healthy page. *)
Lemma session_opened_first_closed_last_witness :
  exists mid,
    trace (sim_scrape (Sim.on Sim.healthy)).2 =
      trace (Sim.on Sim.healthy)
        ++ NewChrome (chrome_options true)
        :: mid ++ [Quit (driver (sim_scrape (Sim.on Sim.healthy)).2)].
Proof.
  refine (session_opened_first_closed_last Sim.Env Sim.perform Sim.tick Sim.today
            "out/MY_RV_Source5.xlsx" None true (Sim.on Sim.healthy) true _ _).
  rewrite (surjective_pairing (sim_scrape (Sim.on Sim.healthy))) at 1.
  f_equal; vm_compute; reflexivity.
Defined.

(** X11, witness: a model that the dropdown of the healthy page does not
    list. The selection raises, the session answers the probe, and the
    pass ends with [continue]. *)
Lemma live_session_is_kept_witness :
  exists s',
    sim_process_condition "Apple" "Nokia 3310" "Good" (Sim.on Sim.healthy)
      = (Ok Continue, s') /\
    driver s' = 1 /\ results_df s' = [].
Proof.
  pose (s0 := Sim.on Sim.healthy).
  pose (s := (navigate Sim.Env Sim.perform Sim.tick "Good" s0).2).
  pose (s1 := (sim_work_unit "Apple" "Nokia 3310" "Good" s).2).
  assert (H1 : navigate Sim.Env Sim.perform Sim.tick "Good" s0 = (Ok Fallthrough, s))
    by (vm_compute; reflexivity).
  assert (H2 : sim_work_unit "Apple" "Nokia 3310" "Good" s
               = (Raise Sim.no_such_element, s1))
    by (vm_compute; reflexivity).
  assert (H3 : Sim.perform (CurrentUrl (driver s1)) (env s1) = (Ok URL, Sim.healthy))
    by (vm_compute; reflexivity).
  destruct (live_session_is_kept Sim.Env Sim.perform Sim.tick
              "out/MY_RV_Source5.xlsx" true sim_defaults "Apple" "Nokia 3310"
              "Good" s0 s Sim.no_such_element s1 URL Sim.healthy H1 H2 H3)
    as [Hpc Hdf].
  eexists. split; [exact Hpc|]. split; [vm_compute; reflexivity | exact Hdf].
Defined.

(** X14, witness: a run on the healthy page with [-n 1]. *)
Lemma rows_bounded_by_the_cap_witness :
  length (results_df (sim_scrape_capped (Sim.on Sim.healthy)).2) <= 6 * Z.to_nat 1 /\
  (1%Z = 0%Z -> true = false).
Proof.
  refine (rows_bounded_by_the_cap Sim.Env Sim.perform Sim.tick Sim.today
            "out/MY_RV_Source5.xlsx" (Some 1%Z) true 1%Z (Sim.on Sim.healthy) true
            _ eq_refl _ _).
  - lia.
  - rewrite (surjective_pairing (sim_scrape_capped (Sim.on Sim.healthy))) at 1.
    f_equal; vm_compute; reflexivity.
Defined.


(** X17, witness: [--retry -1] on the blank page. *)
Lemma no_attempt_when_retry_is_negative_witness :
  main Blank.Env Blank.perform Blank.tick Blank.today "out/MY_RV_Source5.xlsx"
    None true (-1) Blank.start =
    (Ok false,
     mkSt tt (driver Blank.start) (wait Blank.start) (short_wait Blank.start)
          (results_df Blank.start)
          (trace Blank.start ++ [Makedirs "out"])
          (stdout Blank.start ++ ["Saving output to: out/MY_RV_Source5.xlsx";
                                  "Script failed after all retry attempts."])).
Proof.
  refine (no_attempt_when_retry_is_negative Blank.Env Blank.perform Blank.tick
            Blank.today "out/MY_RV_Source5.xlsx" None true (-1)%Z Blank.start tt
            _ _).
  - lia.
  - vm_compute. reflexivity.
Defined.


(** X19, witness: the blank page has no submit button. *)
Lemma failed_submit_still_gives_a_row_witness :
  exists s',
    record_quote Blank.Env Blank.perform Blank.tick sim_defaults "Apple"
      "iPhone 13 128GB" "Good" Blank.start = (Ok tt, s') /\
    results_df s' =
      results_df Blank.start
        ++ [make_result sim_defaults "Apple" "iPhone 13 128GB" "Good" ""] /\
    trace s' =
      trace Blank.start
        ++ [FindElement (driver Blank.start) By_CSS_SELECTOR
              "input.btn.btn-success[type='submit']"].
Proof.
  refine (failed_submit_still_gives_a_row Blank.Env Blank.perform Blank.tick
            sim_defaults "Apple" "iPhone 13 128GB" "Good" Blank.start
            Sim.no_such_element tt _).
  reflexivity.
Defined.

(** X20, witness: the rows of a run on the healthy page. *)
Lemma capacity_of_every_row_witness :
  Forall capacity_column_ok (results_df (sim_scrape (Sim.on Sim.healthy)).2).
Proof.
  refine (proj2 (capacity_of_every_row Sim.Env Sim.perform Sim.tick Sim.today
                   "out/MY_RV_Source5.xlsx" None true)
            (Sim.on Sim.healthy) true _ _).
  rewrite (surjective_pairing (sim_scrape (Sim.on Sim.healthy))) at 1.
  f_equal; vm_compute; reflexivity.
Defined.

(** X21, witness: the session locals at the end of a run on the healthy
    page. *)
Lemma wait_helpers_follow_the_session_witness :
  waits_bound Sim.Env (sim_scrape (Sim.on Sim.healthy)).2.
Proof.
  refine (wait_helpers_follow_the_session Sim.Env Sim.perform Sim.tick Sim.today
            "out/MY_RV_Source5.xlsx" None true (Sim.on Sim.healthy) true _ _).
  rewrite (surjective_pairing (sim_scrape (Sim.on Sim.healthy))) at 1.
  f_equal; vm_compute; reflexivity.
Defined.
